(** * The simulation clock and dial arithmetic of the digital Antikythera
      mechanism, embedded in Rocq

    The Python sources ([ancient_simulation.py], [modern_simulation.py],
    the two drawing modules, the two back-face modules and the two
    recorders) are embedded shallowly:

    - a Python [float] (and the [int]s mixed with them) is a rational
      number [Q]; a float literal denotes its decimal value, [math.pi]
      denotes the binary64 constant, and every operation is exact.
      Rounding to binary64 is not part of the model, so numeric results
      are compared with [==] ([Qeq]);
    - an operation that can raise returns a [result]: [Ok v] or
      [Raise e] with [e] the Python exception class;
    - a [dict] keyed by body names is a [gmap string _]; a configuration
      table that is iterated with [.items()] is an association list in
      the order of the source;
    - a [datetime] is its number of microseconds since
      0001-01-01T00:00:00, a [timedelta] a number of microseconds;
    - drawing, window captions apart, and video encoding are external
      effects and are left out: a [draw_*] function is represented by the
      values it computes before it paints. *)

From Stdlib Require Import QArith Qround ZArith Lia Lqa String List.
From stdpp Require Import gmap strings.

Local Open Scope Q_scope.

(** ** Python values, exceptions and arithmetic *)

Module Py.

(** The exception classes the embedded code can raise. *)
Inductive exn : Set :=
| ZeroDivisionError   (* [x / 0.0], [x % 0.0] *)
| KeyError            (* [d[k]] on a missing key *)
| OverflowError       (* [timedelta] or [datetime] out of range *)
| SystemExit.         (* [sys.exit()] *)

Definition exn_name (e : exn) : string :=
  match e with
  | ZeroDivisionError => "ZeroDivisionError"
  | KeyError => "KeyError"
  | OverflowError => "OverflowError"
  | SystemExit => "SystemExit"
  end.

Inductive result (A : Type) : Type :=
| Ok (a : A)
| Raise (e : exn).
Arguments Ok {A} a.
Arguments Raise {A} e.

Definition bind {A B} (c : result A) (k : A -> result B) : result B :=
  match c with
  | Ok a => k a
  | Raise e => Raise e
  end.

(** [x / y] on floats. *)
Definition truediv (x y : Q) : result Q :=
  if Qeq_bool y 0 then Raise ZeroDivisionError else Ok (x / y).

(** [x % y] on floats with [y] not zero: the remainder has the sign of
    the divisor, that is [x - y * floor (x / y)]. *)
Definition fmod (x y : Q) : Q := x - y * inject_Z (Qfloor (x / y)).

(** [x % y] on floats. *)
Definition float_mod (x y : Q) : result Q :=
  if Qeq_bool y 0 then Raise ZeroDivisionError else Ok (fmod x y).

(** [int(x)]: truncation towards zero. *)
Definition int (x : Q) : Z := Z.quot (Qnum x) (Z.pos (Qden x)).

(** [round(x)]: to the nearest integer, a tie to the even one. *)
Definition round (x : Q) : Z :=
  let f := Qfloor x in
  match Qcompare (x - inject_Z f) (1 # 2) with
  | Lt => f
  | Gt => (f + 1)%Z
  | Eq => if Z.even f then f else (f + 1)%Z
  end.

(** [math.pi], the binary64 number 0x400921FB54442D18. *)
Definition math_pi : Q := 884279719003555 # 281474976710656.

(** [math.radians(x)] multiplies by [pi / 180]. *)
Definition radians (x : Q) : Q := x * (math_pi / 180).

End Py.

Import Py.

Declare Scope py_scope.
Delimit Scope py_scope with py.
Notation "'let*' x ':=' c 'in' k" := (Py.bind c (fun x => k))
  (at level 10, x name, c at level 100, k at level 200) : py_scope.
Local Open Scope py_scope.

(** ** ancient_config.py *)

Module AncientConfig.

Record body : Set := {
  period : Q;
  distance : Q;
  color : Z * Z * Z;
  size : Z
}.

Definition GEOCENTRIC_DATA : list (string * body) := [
  ("Moon", {| period := 27.3; distance := 0.2; color := (200, 200, 200)%Z; size := 5 |});
  ("Sun", {| period := 365.25; distance := 0.8; color := (255, 220, 0)%Z; size := 10 |});
  ("Mercury", {| period := 88.0; distance := 0.3; color := (180, 180, 180)%Z; size := 4 |});
  ("Venus", {| period := 224.7; distance := 0.5; color := (255, 220, 100)%Z; size := 6 |});
  ("Mars", {| period := 687.0; distance := 1.0; color := (220, 70, 80)%Z; size := 5 |});
  ("Jupiter", {| period := 4331.0; distance := 1.3; color := (230, 190, 140)%Z; size := 9 |});
  ("Saturn", {| period := 10747.0; distance := 1.6; color := (240, 200, 150)%Z; size := 8 |})
].

Definition MOON_PHASE_NAMES : list string := [
  "New"; "Waxing Crescent"; "First Quarter"; "Waxing Gibbous";
  "Full"; "Waning Gibbous"; "Last Quarter"; "Waning Crescent"
].

Definition METONIC_MONTHS : list string := [
  "PHOINIKAIOS"; "KRANEIOS"; "LANOTROPIOS"; "MACHANEYS"; "DODEKATEYS"; "EUKLEIOS";
  "ARTEMISIOS"; "PSYDRUS"; "GAMEILIOS"; "AGRIANIOS"; "PANAMOS"; "APELLAIOS"
].



End AncientConfig.

(** ** ancient_simulation.py *)

Module Ancient.

Import AncientConfig.

(** [class AncientSimulationState] *)
Record AncientSimulationState : Type := {
  current_day : Q;
  time_multiplier : Q;
  paused : bool;
  body_angles : gmap string Q
}.

Definition set_current_day (d : Q) (s : AncientSimulationState) :=
  {| current_day := d; time_multiplier := time_multiplier s;
     paused := paused s; body_angles := body_angles s |}.
Definition set_time_multiplier (m : Q) (s : AncientSimulationState) :=
  {| current_day := current_day s; time_multiplier := m;
     paused := paused s; body_angles := body_angles s |}.
Definition set_paused (p : bool) (s : AncientSimulationState) :=
  {| current_day := current_day s; time_multiplier := time_multiplier s;
     paused := p; body_angles := body_angles s |}.
Definition set_body_angles (a : gmap string Q) (s : AncientSimulationState) :=
  {| current_day := current_day s; time_multiplier := time_multiplier s;
     paused := paused s; body_angles := a |}.

(** [__init__]: [{name: 0 for name in config.GEOCENTRIC_DATA}] *)
Definition init_with (cfg : list (string * body)) : AncientSimulationState :=
  {| current_day := 0;
     time_multiplier := 1.0;
     paused := false;
     body_angles := foldl (fun m nd => <[fst nd := 0]> m) ∅ cfg |}.

Definition init : AncientSimulationState := init_with GEOCENTRIC_DATA.

(** The right-hand side of line 24:
    [(self.current_day / data['period']) * 2 * math.pi]. *)
Definition angle (data : body) (current_day : Q) : result Q :=
  let* q := truediv current_day (period data) in
  Ok (q * 2 * math_pi).

(** [_update_body_angles], over the table it iterates. *)
Fixpoint _update_body_angles_with (cfg : list (string * body))
    (s : AncientSimulationState) : result AncientSimulationState :=
  match cfg with
  | [] => Ok s
  | (name, data) :: rest =>
      let* a := angle data (current_day s) in
      _update_body_angles_with rest
        (set_body_angles (<[name := a]> (body_angles s)) s)
  end.

Definition _update_body_angles := _update_body_angles_with GEOCENTRIC_DATA.

(** [update] *)
Definition update_with (cfg : list (string * body))
    (s : AncientSimulationState) : result AncientSimulationState :=
  if negb (paused s) then
    _update_body_angles_with cfg
      (set_current_day (current_day s + time_multiplier s) s)
  else Ok s.

Definition update := update_with GEOCENTRIC_DATA.

(** [change_speed] *)
Definition change_speed (factor : Q) (s : AncientSimulationState) :=
  set_time_multiplier (time_multiplier s * factor) s.

(** [toggle_pause] *)
Definition toggle_pause (s : AncientSimulationState) :=
  set_paused (negb (paused s)) s.

(** [n] consecutive calls of [update]. *)
Fixpoint updates (n : nat) (s : AncientSimulationState)
    : result AncientSimulationState :=
  match n with
  | O => Ok s
  | S n' => let* s' := update s in updates n' s'
  end.


(** [class AncientAntikythera]: the state object, the selected view and
    the window caption ([pygame.display.set_caption]); the screen, the
    fonts and the renderers take no part in the simulation. *)
Record AncientAntikythera : Type := {
  state : AncientSimulationState;
  current_view : string;
  caption : string
}.

Definition set_state (s : AncientSimulationState) (a : AncientAntikythera) :=
  {| state := s; current_view := current_view a; caption := caption a |}.
Definition set_current_view (v : string) (a : AncientAntikythera) :=
  {| state := state a; current_view := v; caption := caption a |}.
Definition set_caption (c : string) (a : AncientAntikythera) :=
  {| state := state a; current_view := current_view a; caption := c |}.

(** [__init__], with the caption of [_setup_screen]. *)
Definition app_init : AncientAntikythera :=
  {| state := init;
     current_view := "front";
     caption := "Ancient Antikythera - Geocentric View" |}.

(** [_update_caption] *)
Definition _update_caption (a : AncientAntikythera) : AncientAntikythera :=
  if String.eqb (current_view a) "front"
  then set_caption "Ancient Antikythera - Geocentric View" a
  else set_caption "Ancient Antikythera - Back Dials" a.

(** The pygame events [_handle_input] distinguishes. *)
Inductive key : Set := K_UP | K_DOWN | K_SPACE | K_TAB | K_other.
Inductive event : Set := QUIT | KEYDOWN (k : key) | OTHER.

(** The body of the [for event in pygame.event.get()] loop. *)
Definition handle_event (ev : event) (a : AncientAntikythera)
    : result AncientAntikythera :=
  match ev with
  | QUIT => Raise SystemExit
  | KEYDOWN K_UP => Ok (set_state (change_speed 1.5 (state a)) a)
  | KEYDOWN K_DOWN => Ok (set_state (change_speed (1 / 1.5) (state a)) a)
  | KEYDOWN K_SPACE => Ok (set_state (toggle_pause (state a)) a)
  | KEYDOWN K_TAB =>
      Ok (_update_caption
            (set_current_view
               (if String.eqb (current_view a) "front" then "back" else "front") a))
  | KEYDOWN K_other | OTHER => Ok a
  end.

(** [_handle_input] on the events pygame delivers. *)
Fixpoint _handle_input (events : list event) (a : AncientAntikythera)
    : result AncientAntikythera :=
  match events with
  | [] => Ok a
  | ev :: rest => let* a' := handle_event ev a in _handle_input rest a'
  end.

(** One turn of the loop of [run]: input, then [state.update()]; the scene
    is then drawn from the resulting state. *)
Definition run_turn (events : list event) (a : AncientAntikythera)
    : result AncientAntikythera :=
  let* a' := _handle_input events a in
  let* s' := update (state a') in
  Ok (set_state s' a').

(** The [while True] loop of [run], for the turns whose events are given. *)
Fixpoint run (turns : list (list event)) (a : AncientAntikythera)
    : result AncientAntikythera :=
  match turns with
  | [] => Ok a
  | events :: rest => let* a' := run_turn events a in run rest a'
  end.

End Ancient.

(** ** The moon display shared by ancient_drawing.py and modern_drawing.py

    Lines 110-116 and 125 of [AncientRenderer.draw_moon_phase] and lines
    65-69 and 76 of [draw_large_moon_phase] are the same text. *)

Module MoonDisplay.

(** [moon_radius = int(self.WIDTH / 15)] *)
Definition moon_radius (WIDTH : Z) : Z := Py.int (inject_Z WIDTH / 15).

(** The [if phase < 0.5: ... else: ...] that sets [lit_radius]. *)
Definition lit_radius (phase : Q) (moon_radius : Z) : Q :=
  if Qlt_le_dec phase 0.5
  then (phase / 0.5) * inject_Z moon_radius
  else (1 - (phase - 0.5) / 0.5) * inject_Z moon_radius.

(** [phase_index = int((phase * 8 + 0.5)) % 8] *)
Definition phase_index (phase : Q) : Z := (Py.int (phase * 8 + 0.5)) mod 8.

(** [names[phase_index]]; an index of [0 .. 7] is never out of range. *)
Definition current_phase_name (names : list string) (phase : Q) : option string :=
  names !! Z.to_nat (phase_index phase).

(** What the display shows: the radius of the lit disc, drawn only
    [if lit_radius > 0] and then with [int(lit_radius)], and the label. *)
Record shown : Type := {
  lit_disc : option Z;
  label : option string
}.

Definition show (names : list string) (phase : Q) (WIDTH : Z) : shown :=
  let r := lit_radius phase (moon_radius WIDTH) in
  {| lit_disc := if Qlt_le_dec 0 r then Some (Py.int r) else None;
     label := (fun n => "Moon: " ++ n)%string <$> current_phase_name names phase |}.

End MoonDisplay.

(** ** ancient_drawing.py *)

Module AncientRenderer.

Import AncientConfig.


(** [draw_moon_phase], lines 104-105. *)
Definition angle_diff (sun_angle moon_angle : Q) : Q :=
  fmod (moon_angle - sun_angle + math_pi) (2 * math_pi).

Definition phase (sun_angle moon_angle : Q) : Q :=
  angle_diff sun_angle moon_angle / (2 * math_pi).


(** [draw_celestial_bodies]: the radius of the orbit of each body and the
    angle it is drawn at.  The coordinates on the screen are the cosine
    and the sine of that angle, which the embedding does not compute. *)

(** [max(x, *rest)]: the first of the greatest elements. *)
Definition max_of (x : Q) (rest : list Q) : Q :=
  foldl (fun m d => if Qlt_le_dec m d then d else m) x rest.

(** [max(d['distance'] for d in config.GEOCENTRIC_DATA.values())]; the
    table is not empty. *)
Definition max_dist_raw : Q :=
  match distance ∘ snd <$> GEOCENTRIC_DATA with
  | [] => 0
  | d :: rest => max_of d rest
  end.

(** [self.WIDTH // 2 - 80] *)
Definition max_screen_dist (WIDTH : Z) : Z := (WIDTH / 2 - 80)%Z.

(** [max_dist_raw] is 1.6, so this division never fails. *)
Definition normalized_dist (data : body) : Q := distance data / max_dist_raw.

Definition orbit_radius (WIDTH : Z) (data : body) : Z :=
  Py.int (inject_Z (max_screen_dist WIDTH) * normalized_dist data).




End AncientRenderer.

(** ** ancient_back_face.py *)

Module AncientBackRenderer.

(** [draw_metonic_dial], the pointer (lines 70-76). *)
Definition total_months : Q := 235.
Definition synodic_month_days : Q := 29.530589.

Definition current_month (current_day : Q) : Q :=
  fmod (current_day / synodic_month_days) total_months.


Definition pointer_t (current_day : Q) : Q :=
  current_month current_day / total_months.




Definition month_name (month_idx : Z) : option string :=
  AncientConfig.METONIC_MONTHS !! Z.to_nat (month_idx mod 12).

Definition metonic_labels : list (Z * option string) :=
  (fun month_idx => (month_idx, month_name month_idx))
  <$> filter (fun month_idx => (month_idx mod 12 = 0)%Z) (seqZ 0 235).








(** [draw_games_dial]: the pointer, and for sector [i] the angle of its
    label and the text written there, [game1[:4]] of
    [GAMES_INSCRIPTIONS[i + 1]]. *)
Definition year_in_cycle (current_day : Q) : Z :=
  Py.int (fmod (current_day / 365.25) 4).









End AncientBackRenderer.

(** ** ancient_simulation.py, the scene *)

Module AncientScene.

Import Ancient.



End AncientScene.

(** ** ancient_recorder.py *)

Module AncientRecorder.

Import Ancient.

(** [class AncientSimulationRecorder]: the application it drives and the
    [recording] flag; the captured pixels and the video writer are
    external. *)
Record AncientSimulationRecorder : Type := {
  app : AncientAntikythera;
  recording : bool
}.

(** The [for frame_num in range(frames_to_record)] loop: one
    [self.app.state.update()] per frame, the scene drawn and captured
    after it. *)
Fixpoint record_frames (frames_to_record : nat) (a : AncientAntikythera)
    : result AncientAntikythera :=
  match frames_to_record with
  | O => Ok a
  | S n =>
      let* s' := update (state a) in
      record_frames n (set_state s' a)
  end.

(** [start_recording(view, speed_multiplier, duration_seconds, formats)];
    [formats] only selects the encoders. *)
Definition start_recording (view : string) (speed_multiplier : Q)
    (duration_seconds : Q) (r : AncientSimulationRecorder)
    : result AncientSimulationRecorder :=
  if recording r then Ok r
  else
    let original_view := current_view (app r) in
    let original_speed := time_multiplier (state (app r)) in
    let original_paused := paused (state (app r)) in
    let a1 := set_current_view view (app r) in
    let a2 := set_state (set_time_multiplier speed_multiplier (state a1)) a1 in
    let a3 := set_state (set_paused false (state a2)) a2 in
    let a4 := _update_caption a3 in
    let frames_to_record := Z.to_nat (Py.int (duration_seconds * 60)) in
    let* a5 := record_frames frames_to_record a4 in
    let a6 := set_current_view original_view a5 in
    let a7 := set_state (set_time_multiplier original_speed (state a6)) a6 in
    let a8 := set_state (set_paused original_paused (state a7)) a7 in
    let a9 := _update_caption a8 in
    Ok {| app := a9; recording := false |}.

(** The events [_handle_input_with_recording] distinguishes. *)
Inductive key : Set :=
  K_UP | K_DOWN | K_SPACE | K_TAB | K_r | K_b | K_c | K_other.
Inductive event : Set := QUIT | KEYDOWN (k : key) | OTHER.







End AncientRecorder.

(** ** modern_config.py *)

Module ModernConfig.

Record planet : Set := {
  color : Z * Z * Z;
  speed : Q;
  size : Z
}.

Definition ORBITAL_PERIODS : list (string * Q) := [
  ("Mercury", 88.0); ("Venus", 224.7); ("Earth", 365.25); ("Mars", 687.0);
  ("Jupiter", 4331.0); ("Saturn", 10747.0); ("Uranus", 30687.0);
  ("Neptune", 60190.0)
].

(** [speed] is [360 / ORBITAL_PERIODS[name]], evaluated when the module is
    loaded; no period of the table is zero. *)
Definition PLANET_VISUAL_DATA : list (string * planet) := [
  ("Mercury", {| color := (180, 180, 180)%Z; speed := 360 / 88.0; size := 5 |});
  ("Venus", {| color := (255, 220, 100)%Z; speed := 360 / 224.7; size := 7 |});
  ("Earth", {| color := (0, 150, 255)%Z; speed := 360 / 365.25; size := 8 |});
  ("Mars", {| color := (220, 70, 80)%Z; speed := 360 / 687.0; size := 6 |});
  ("Jupiter", {| color := (230, 190, 140)%Z; speed := 360 / 4331.0; size := 12 |});
  ("Saturn", {| color := (240, 200, 150)%Z; speed := 360 / 10747.0; size := 11 |});
  ("Uranus", {| color := (150, 220, 230)%Z; speed := 360 / 30687.0; size := 9 |});
  ("Neptune", {| color := (80, 120, 200)%Z; speed := 360 / 60190.0; size := 9 |})
].

Definition MOON_PHASE_NAMES : list string := [
  "New Moon"; "Waxing Crescent"; "First Quarter"; "Waxing Gibbous";
  "Full Moon"; "Waning Gibbous"; "Last Quarter"; "Waning Crescent"
].

Definition SYNODIC_PERIOD : Q := 29.53.

Definition SAROS_CYCLE_YEARS : Q := 18.03.


Definition BG_COLOR_TOP : Z * Z * Z := (20, 20, 50)%Z.
Definition BG_COLOR_BOTTOM : Z * Z * Z := (5, 5, 20)%Z.

End ModernConfig.

(** ** datetime and timedelta *)

Module DateTime.

Definition us_per_day : Z := 86400 * 1000000.

(** [datetime.max] is 9999-12-31T23:59:59.999999, the last microsecond of
    day 3652059 of the calendar. *)
Definition MAXORDINAL : Z := 3652059.

(** [datetime(2000, 1, 1)] has ordinal 730120 and [MOON_EPOCH],
    2000-01-06, ordinal 730125; ordinal 1 is microsecond 0. *)
Definition datetime_2000_01_01 : Z := (730120 - 1) * us_per_day.
Definition datetime_2000_01_06 : Z := (730125 - 1) * us_per_day.

(** [timedelta(days=x)]: [x] days to the nearest microsecond, a tie to the
    even one; more than 999999999 days either way is refused. *)
Definition timedelta_days (x : Q) : result Z :=
  let us := Py.round (x * inject_Z us_per_day) in
  if (Z.abs (us / us_per_day) >? 999999999)%Z then Raise OverflowError
  else Ok us.

(** [d + td] on a [datetime] and a [timedelta]. *)
Definition add (d td : Z) : result Z :=
  let r := (d + td)%Z in
  if ((0 <=? r) && (r <? MAXORDINAL * us_per_day))%Z then Ok r
  else Raise OverflowError.

(** [(d1 - d2).total_seconds()] *)
Definition total_seconds (d1 d2 : Z) : Q := inject_Z (d1 - d2) / 1000000.

End DateTime.

(** ** modern_simulation.py *)

Module Modern.

Import ModernConfig.

(** [class SimulationState]; the fonts it also carries are left out. *)
Record SimulationState : Type := {
  current_date : Z;
  time_multiplier : Q;
  paused : bool;
  planet_angles : gmap string Q
}.

Definition set_current_date (d : Z) (s : SimulationState) :=
  {| current_date := d; time_multiplier := time_multiplier s;
     paused := paused s; planet_angles := planet_angles s |}.
Definition set_time_multiplier (m : Q) (s : SimulationState) :=
  {| current_date := current_date s; time_multiplier := m;
     paused := paused s; planet_angles := planet_angles s |}.
Definition set_paused (p : bool) (s : SimulationState) :=
  {| current_date := current_date s; time_multiplier := time_multiplier s;
     paused := p; planet_angles := planet_angles s |}.
Definition set_planet_angles (a : gmap string Q) (s : SimulationState) :=
  {| current_date := current_date s; time_multiplier := time_multiplier s;
     paused := paused s; planet_angles := a |}.

(** [{name: math.radians(i * 45) for i, name in enumerate(...)}] *)
Fixpoint initial_angles (i : Z) (cfg : list (string * planet))
    (m : gmap string Q) : gmap string Q :=
  match cfg with
  | [] => m
  | (name, _) :: rest =>
      initial_angles (i + 1) rest (<[name := radians (inject_Z (i * 45))]> m)
  end.

(** [__init__]; [now] is what [datetime.now()] returns. *)
Definition init (now : Z) : SimulationState :=
  {| current_date := now;
     time_multiplier := 1.0;
     paused := false;
     planet_angles := initial_angles 0 PLANET_VISUAL_DATA ∅ |}.

(** The [for name, data in config.PLANET_VISUAL_DATA.items()] loop of
    [update]. *)
Fixpoint advance_planets (cfg : list (string * planet)) (delta_time : Q)
    (s : SimulationState) : result SimulationState :=
  match cfg with
  | [] => Ok s
  | (name, data) :: rest =>
      let angle_change := radians (speed data * time_multiplier s * delta_time) in
      match planet_angles s !! name with
      | None => Raise KeyError
      | Some a =>
          advance_planets rest delta_time
            (set_planet_angles (<[name := a + angle_change]> (planet_angles s)) s)
      end
  end.

(** [update(delta_time)] *)
Definition update (delta_time : Q) (s : SimulationState)
    : result SimulationState :=
  if negb (paused s) then
    let* td := DateTime.timedelta_days (time_multiplier s * delta_time) in
    let* d := DateTime.add (current_date s) td in
    advance_planets PLANET_VISUAL_DATA delta_time (set_current_date d s)
  else Ok s.

(** [update] called once for each [delta_time] of a list, in order. *)
Fixpoint updates (deltas : list Q) (s : SimulationState)
    : result SimulationState :=
  match deltas with
  | [] => Ok s
  | d :: rest => let* s' := update d s in updates rest s'
  end.

(** [class ModernAntikythera] *)
Record ModernAntikythera : Type := {
  simulation_state : SimulationState;
  current_view : string;
  caption : string
}.

Definition set_simulation_state (s : SimulationState) (a : ModernAntikythera) :=
  {| simulation_state := s; current_view := current_view a; caption := caption a |}.
Definition set_current_view (v : string) (a : ModernAntikythera) :=
  {| simulation_state := simulation_state a; current_view := v; caption := caption a |}.
Definition set_caption (c : string) (a : ModernAntikythera) :=
  {| simulation_state := simulation_state a; current_view := current_view a; caption := c |}.

Definition app_init (now : Z) : ModernAntikythera :=
  {| simulation_state := init now;
     current_view := "front";
     caption := "Modern Antikythera" |}.

(** [_update_caption] *)
Definition _update_caption (a : ModernAntikythera) : ModernAntikythera :=
  if String.eqb (current_view a) "front"
  then set_caption "Modern Antikythera - Solar System View" a
  else set_caption "Modern Antikythera - Astronomical Cycles" a.

Inductive key : Set := K_UP | K_DOWN | K_SPACE | K_TAB | K_other.
Inductive event : Set := QUIT | KEYDOWN (k : key) | OTHER.

(** [delta_time = clock.tick(60) / 1000.0 * 60], from the milliseconds
    pygame reports. *)
Definition delta_time_of (tick_ms : Z) : Q := inject_Z tick_ms / 1000.0 * 60.

(** The body of the event loop of [run]; the flag is [running]. *)
Definition handle_event (ev : event) (ar : ModernAntikythera * bool)
    : ModernAntikythera * bool :=
  let (a, running) := ar in
  let s := simulation_state a in
  match ev with
  | QUIT => (a, false)
  | KEYDOWN K_UP =>
      (set_simulation_state (set_time_multiplier (time_multiplier s * 1.5) s) a, running)
  | KEYDOWN K_DOWN =>
      (set_simulation_state (set_time_multiplier (time_multiplier s / 1.5) s) a, running)
  | KEYDOWN K_SPACE =>
      (set_simulation_state (set_paused (negb (paused s)) s) a, running)
  | KEYDOWN K_TAB =>
      (_update_caption
         (set_current_view
            (if String.eqb (current_view a) "front" then "back" else "front") a),
       running)
  | KEYDOWN K_other | OTHER => (a, running)
  end.

(** One turn of the [while running] loop of [run]: the tick of the clock,
    the events, then [update(delta_time)]. *)
Definition run_turn (tick_ms : Z) (events : list event) (a : ModernAntikythera)
    : result (ModernAntikythera * bool) :=
  let (a', running) := foldl (fun ar ev => handle_event ev ar) (a, true) events in
  let* s' := update (delta_time_of tick_ms) (simulation_state a') in
  Ok (set_simulation_state s' a', running).

(** The [while running] loop of [run], for the turns whose clock reading
    and events are given; when [running] has become false the loop is
    left and [sys.exit()] is called. *)
Fixpoint run (turns : list (Z * list event)) (a : ModernAntikythera)
    : result ModernAntikythera :=
  match turns with
  | [] => Ok a
  | (tick_ms, events) :: rest =>
      let* ar := run_turn tick_ms events a in
      if snd ar then run rest (fst ar) else Raise SystemExit
  end.

End Modern.

(** ** modern_drawing.py *)

Module ModernDrawing.

Import ModernConfig Modern.

(** [draw_large_moon_phase], lines 57-58. *)
Definition days_into_cycle (s : SimulationState) : Q :=
  DateTime.total_seconds (current_date s) DateTime.datetime_2000_01_06
  / (24 * 3600).

Definition phase (s : SimulationState) : Q :=
  fmod (days_into_cycle s / SYNODIC_PERIOD) 1.0.

Definition draw_large_moon_phase (width : Z) (s : SimulationState)
    : MoonDisplay.shown :=
  MoonDisplay.show MOON_PHASE_NAMES (phase s) width.

(** [draw_gradient_background]: the colour of the line drawn at row [y]
    of a surface of the given height, and the lines of all rows. *)
Definition gradient_channel (top bottom : Z) (ratio : Q) : Z :=
  Py.int (inject_Z top * (1 - ratio) + inject_Z bottom * ratio).

Definition gradient_row (height y : Z) : Z * Z * Z :=
  let ratio := inject_Z y / inject_Z height in
  let '(tr, tg, tb) := BG_COLOR_TOP in
  let '(br, bg, bb) := BG_COLOR_BOTTOM in
  (gradient_channel tr br ratio, gradient_channel tg bg ratio,
   gradient_channel tb bb ratio).

Definition draw_gradient_background (height : Z) : list (Z * Z * Z) :=
  gradient_row height <$> seqZ 0 height.

(** [draw_celestial_bodies]: the radius of the orbit of the planet with
    index [i] in the table, and the size it is drawn with. *)
Definition orbit_spacing (width : Z) : Z := Py.int (inject_Z width / 26.6).
Definition base_orbit (width : Z) : Z := Py.int (inject_Z width / 17).
Definition orbit_radius (width i : Z) : Z :=
  (base_orbit width + i * orbit_spacing width)%Z.
Definition planet_size (width : Z) (data : planet) : Z :=
  Py.int (inject_Z (size data) * (inject_Z width / 1200)).

(** [draw_calendar_and_zodiac_dials]: the radii of the four rings. *)
Definition parapegma_radius (width : Z) : Z :=
  (width / 2 - Py.int (inject_Z width / 30))%Z.
Definition zodiac_radius (width : Z) : Z :=
  (parapegma_radius width - Py.int (inject_Z width / 20))%Z.
Definition day_ring_radius (width : Z) : Z :=
  (zodiac_radius width - Py.int (inject_Z width / 25))%Z.
Definition month_radius (width : Z) : Z :=
  (day_ring_radius width - Py.int (inject_Z width / 25))%Z.

End ModernDrawing.

(** ** modern_back_face.py *)

Module ModernBackRenderer.

Import ModernConfig Modern.

(** [days_in_cycle], the same line in the three cycle dials. *)
Definition days_in_cycle (s : SimulationState) : Q :=
  DateTime.total_seconds (current_date s) DateTime.datetime_2000_01_01
  / (24 * 3600).

(** [progress = (days_in_cycle % total_days) / total_days] *)
Definition progress (days_in_cycle total_days : Q) : Q :=
  fmod days_in_cycle total_days / total_days.

Definition saros_progress (s : SimulationState) : Q :=
  progress (days_in_cycle s) (SAROS_CYCLE_YEARS * 365.25).


(** The numbers written in the three cycle dials:
    [int(days_in_cycle / 365.25) % config.METONIC_CYCLE_YEARS + 1],
    [int((days_in_cycle / config.SYNODIC_PERIOD) % config.SAROS_CYCLE_MONTHS)]
    and [int((days_in_cycle / (config.SAROS_CYCLE_YEARS * 365.25))
    % config.EXELIGMOS_CYCLE_SAROS) + 1]. *)
Definition year_in_cycle (s : SimulationState) : Z :=
  (Py.int (days_in_cycle s / 365.25) mod 19 + 1)%Z.



End ModernBackRenderer.

(** ** modern_recorder.py *)

Module ModernRecorder.

Import Modern.

(** [class SimulationRecorder] *)
Record SimulationRecorder : Type := {
  app : ModernAntikythera;
  recording : bool
}.

(** The recording loop; [tick_ms i] is what [clock.tick(60)] returns in
    frame [i]. *)
Fixpoint record_frames (frames_to_record : nat) (tick_ms : nat -> Z)
    (a : ModernAntikythera) : result ModernAntikythera :=
  match frames_to_record with
  | O => Ok a
  | S n =>
      let delta_time := delta_time_of (tick_ms O) in
      let* s' := update delta_time (simulation_state a) in
      record_frames n (fun i => tick_ms (S i)) (set_simulation_state s' a)
  end.

(** [start_recording(view, speed_multiplier, duration_seconds, formats)] *)
Definition start_recording (view : string) (speed_multiplier : Q)
    (duration_seconds : Q) (tick_ms : nat -> Z) (r : SimulationRecorder)
    : result SimulationRecorder :=
  if recording r then Ok r
  else
    let original_view := current_view (app r) in
    let original_speed := time_multiplier (simulation_state (app r)) in
    let original_paused := paused (simulation_state (app r)) in
    let a1 := set_current_view view (app r) in
    let a2 := set_simulation_state
                (set_time_multiplier speed_multiplier (simulation_state a1)) a1 in
    let a3 := set_simulation_state (set_paused false (simulation_state a2)) a2 in
    let a4 := _update_caption a3 in
    let frames_to_record := Z.to_nat (Py.int (duration_seconds * 60)) in
    let* a5 := record_frames frames_to_record tick_ms a4 in
    let a6 := set_current_view original_view a5 in
    let a7 := set_simulation_state
                (set_time_multiplier original_speed (simulation_state a6)) a6 in
    let a8 := set_simulation_state
                (set_paused original_paused (simulation_state a7)) a7 in
    let a9 := _update_caption a8 in
    Ok {| app := a9; recording := false |}.

End ModernRecorder.

(** ** Vocabulary of the properties *)

Section Vocabulary.

Import AncientConfig Ancient.

(** The angles [_update_body_angles] leaves in the dictionary [m], when no
    division fails. *)
Definition angles_of (cfg : list (string * body)) (day : Q)
    (m : gmap string Q) : gmap string Q :=
  foldl (fun m nd => <[fst nd := day / period (snd nd) * 2 * math_pi]> m) m cfg.

(** No period of the table is zero. *)
Definition nonzero_periods (cfg : list (string * body)) : Prop :=
  Forall (fun nd => ~ period (snd nd) == 0) cfg.

(** Every angle of the state is the direct function of its day count. *)
Definition direct (s : AncientSimulationState) : Prop :=
  forall name data, (name, data) ∈ GEOCENTRIC_DATA ->
    exists a, body_angles s !! name = Some a
              /\ a == current_day s / period data * 2 * math_pi.

(** Two dictionaries of angles with the same keys and equal numbers. *)
Definition same_angles (m m' : gmap string Q) : Prop :=
  forall name, option_Forall2 Qeq (m !! name) (m' !! name).

(** Two states that hold the same numbers. *)
Definition same_state (s t : AncientSimulationState) : Prop :=
  current_day s == current_day t
  /\ time_multiplier s == time_multiplier t
  /\ paused s = paused t
  /\ same_angles (body_angles s) (body_angles t).

(** The same for two states of the modern variant. *)
Definition modern_same_state (m n : Modern.SimulationState) : Prop :=
  Modern.current_date m = Modern.current_date n
  /\ Modern.time_multiplier m == Modern.time_multiplier n
  /\ Modern.paused m = Modern.paused n
  /\ same_angles (Modern.planet_angles m) (Modern.planet_angles n).

(** Two outcomes: the same exception, or results related by [R]. *)
Definition same_result {A : Type} (R : A -> A -> Prop) (r1 r2 : result A) : Prop :=
  match r1, r2 with
  | Ok a, Ok b => R a b
  | Raise e, Raise e' => e = e'
  | _, _ => False
  end.

End Vocabulary.

(** ** Vocabulary of the further properties *)

Section MoreVocabulary.

Import Ancient.

(** The caption is the one [_update_caption] gives the view, and the view
    is one of the two faces. *)
Definition well_captioned (a : AncientAntikythera) : Prop :=
  (current_view a = "front"
   /\ caption a = "Ancient Antikythera - Geocentric View")
  \/ (current_view a = "back"
      /\ caption a = "Ancient Antikythera - Back Dials").



(** Every planet of the table has an angle in the state. *)
Definition all_planets (m : Modern.SimulationState) : Prop :=
  forall name data, (name, data) ∈ ModernConfig.PLANET_VISUAL_DATA ->
    is_Some (Modern.planet_angles m !! name).





End MoreVocabulary.

(** * Properties *)

(** ** Exact float arithmetic *)



Section PyArith.

Lemma Qfloor_bounds (x : Q) :
  inject_Z (Qfloor x) <= x /\ x < inject_Z (Qfloor x) + 1.
Proof.
  split; [apply Qfloor_le |].
  pose proof (Qlt_floor x) as H.
  rewrite inject_Z_plus in H. exact H.
Qed.

Lemma Qfloor_unique (x : Q) (z : Z) :
  inject_Z z <= x -> x < inject_Z z + 1 -> Qfloor x = z.
Proof.
  intros Hlo Hhi.
  destruct (Qfloor_bounds x) as [Flo Fhi].
  assert (inject_Z z < inject_Z (Qfloor x + 1)) as A
    by (rewrite inject_Z_plus; change (inject_Z 1) with 1; lra).
  assert (inject_Z (Qfloor x) < inject_Z (z + 1)) as B
    by (rewrite inject_Z_plus; change (inject_Z 1) with 1; lra).
  rewrite <- Zlt_Qlt in A, B. lia.
Qed.


(** On a float that is not negative [int] is the floor. *)
Lemma int_nonneg (x : Q) : 0 <= x -> Py.int x = Qfloor x.
Proof.
  destruct x as [n d]. unfold Qle, Py.int, Qfloor. simpl.
  intros H. apply Z.quot_div_nonneg; lia.
Qed.

Lemma fmod_comp (x x' y y' : Q) :
  x == x' -> y == y' -> fmod x y == fmod x' y'.
Proof.
  intros Hx Hy. unfold fmod.
  assert (Qfloor (x / y) = Qfloor (x' / y')) as ->
    by (apply Qfloor_comp; rewrite Hx, Hy; reflexivity).
  rewrite Hx, Hy. reflexivity.
Qed.

(** The remainder of a floored division by a positive number. *)
Lemma fmod_range (x y : Q) : 0 < y -> 0 <= fmod x y /\ fmod x y < y.
Proof.
  intros Hy. unfold fmod.
  destruct (Qfloor_bounds (x / y)) as [Flo Fhi].
  set (k := inject_Z (Qfloor (x / y))) in *.
  assert (x == (x / y) * y) as Hx by (field; lra).
  assert (k * y <= (x / y) * y) as A by (apply Qmult_le_compat_r; lra).
  assert ((x / y) * y < (k + 1) * y) as B by (apply Qmult_lt_compat_r; lra).
  split; lra.
Qed.




Lemma truediv_ok (x y : Q) : ~ y == 0 -> truediv x y = Ok (x / y).
Proof.
  intros Hy. unfold truediv.
  destruct (Qeq_bool y 0) eqn:E; [apply Qeq_bool_eq in E; contradiction | reflexivity].
Qed.

Lemma truediv_zero (x y : Q) : y == 0 -> truediv x y = Raise ZeroDivisionError.
Proof.
  intros Hy. unfold truediv. rewrite (Qeq_eq_bool _ _ Hy). reflexivity.
Qed.

End PyArith.

(** ** The moon display *)

Section MoonPhase.

Import MoonDisplay.

Lemma phase_index_floor (phase : Q) :
  0 <= phase -> phase_index phase = (Qfloor (phase * 8 + 0.5) mod 8)%Z.
Proof.
  intros H. unfold phase_index. rewrite int_nonneg; [reflexivity | lra].
Qed.



(** So it is in the modern one. *)
Lemma modern_phase_range (s : Modern.SimulationState) :
  0 <= ModernDrawing.phase s /\ ModernDrawing.phase s < 1.
Proof.
  unfold ModernDrawing.phase.
  destruct (fmod_range (ModernDrawing.days_into_cycle s / ModernConfig.SYNODIC_PERIOD) 1.0)
    as [Rlo Rhi]; [reflexivity |].
  split; lra.
Qed.


Lemma draw_large_moon_phase_label (width : Z) (s : Modern.SimulationState) :
  label (ModernDrawing.draw_large_moon_phase width s)
  = (fun n => "Moon: " ++ n)%string
    <$> ModernConfig.MOON_PHASE_NAMES
        !! Z.to_nat (Qfloor (ModernDrawing.phase s * 8 + 0.5) mod 8).
Proof.
  unfold ModernDrawing.draw_large_moon_phase, show, current_phase_name. cbn [label].
  rewrite phase_index_floor by apply modern_phase_range. reflexivity.
Qed.



End MoonPhase.

Section LitRadius.

Import MoonDisplay.

Lemma lit_radius_waxing (phase : Q) (moon_radius : Z) :
  phase < 0.5 -> lit_radius phase moon_radius == 2 * phase * inject_Z moon_radius.
Proof.
  intros H. unfold lit_radius.
  destruct (Qlt_le_dec phase 0.5) as [_ | C]; [field | lra].
Qed.

Lemma lit_radius_waning (phase : Q) (moon_radius : Z) :
  0.5 <= phase ->
  lit_radius phase moon_radius == 2 * (1 - phase) * inject_Z moon_radius.
Proof.
  intros H. unfold lit_radius.
  destruct (Qlt_le_dec phase 0.5) as [C | _]; [lra | field].
Qed.

(** C7. The lit radius is a triangular wave of the phase: 0 at phase 0,
    rising linearly ([2 * phase * moon_radius]) on [0, 0.5) to the full
    [moon_radius] at 0.5, falling linearly ([2 * (1 - phase) * moon_radius])
    on [0.5, 1] back to 0, with the same value at [phase] and
    [1 - phase]; it stays between 0 and [moon_radius]. *)
Theorem lit_radius_triangular (phase : Q) (moon_radius : Z) :
  0 <= phase -> phase <= 1 ->
  lit_radius 0 moon_radius == 0
  /\ lit_radius 0.5 moon_radius == inject_Z moon_radius
  /\ lit_radius 1 moon_radius == 0
  /\ (phase < 0.5 ->
        lit_radius phase moon_radius == 2 * phase * inject_Z moon_radius)
  /\ (0.5 <= phase ->
        lit_radius phase moon_radius == 2 * (1 - phase) * inject_Z moon_radius)
  /\ lit_radius (1 - phase) moon_radius == lit_radius phase moon_radius
  /\ ((0 <= moon_radius)%Z ->
        0 <= lit_radius phase moon_radius
        /\ lit_radius phase moon_radius <= inject_Z moon_radius).
Proof.
  intros H0 H1.
  split; [rewrite lit_radius_waxing by reflexivity; ring |].
  split; [rewrite lit_radius_waning by discriminate; ring |].
  split; [rewrite lit_radius_waning by discriminate; ring |].
  split; [apply lit_radius_waxing |].
  split; [apply lit_radius_waning |].
  split.
  - destruct (Qlt_le_dec phase 0.5) as [L | G].
    + rewrite (lit_radius_waxing phase) by exact L.
      rewrite lit_radius_waning by lra. ring.
    + rewrite (lit_radius_waning phase) by exact G.
      destruct (Qeq_dec phase 0.5) as [E | N].
      * rewrite lit_radius_waning by lra. rewrite E. ring.
      * assert (0.5 < phase) as G' by (apply Qle_lteq in G; destruct G as [G | G];
                                        [exact G | symmetry in G; contradiction]).
        rewrite lit_radius_waxing by lra. ring.
  - intros Hr. rewrite Zle_Qle in Hr. change (inject_Z 0) with 0 in Hr.
    set (r := inject_Z moon_radius) in *.
    destruct (Qlt_le_dec phase 0.5) as [L | G].
    + rewrite (lit_radius_waxing phase) by exact L. fold r.
      assert (0 <= phase * r) as A by (apply Qmult_le_0_compat; lra).
      assert (0 <= ((1 # 2) - phase) * r) as B by (apply Qmult_le_0_compat; lra).
      split; lra.
    + rewrite (lit_radius_waning phase) by exact G. fold r.
      assert (0 <= (1 - phase) * r) as A by (apply Qmult_le_0_compat; lra).
      assert (0 <= (phase - (1 # 2)) * r) as B by (apply Qmult_le_0_compat; lra).
      split; lra.
Qed.

(** C7 at a quarter of the cycle, where half of the radius is lit. *)
Lemma lit_radius_triangular_witness :
  lit_radius 0.25 80 == 2 * 0.25 * inject_Z 80
  /\ lit_radius (1 - 0.25) 80 == lit_radius 0.25 80.
Proof.
  assert (0 <= 0.25) as A by discriminate.
  assert (0.25 <= 1) as B by discriminate.
  destruct (lit_radius_triangular 0.25 80 A B) as (_ & _ & _ & W & _ & S & _).
  split; [apply W; reflexivity | exact S].
Defined.

End LitRadius.

(** ** Cycle progress *)

Section CycleProgress.

Import ModernBackRenderer.






End CycleProgress.

(** ** The ancient clock *)

Section AncientClock.

Import AncientConfig Ancient.

Lemma angle_ok (data : body) (day : Q) :
  ~ period data == 0 -> angle data day = Ok (day / period data * 2 * math_pi).
Proof. intros H. unfold angle. rewrite truediv_ok by exact H. reflexivity. Qed.

Lemma angle_zero_period (data : body) (day : Q) :
  period data == 0 -> angle data day = Raise ZeroDivisionError.
Proof. intros H. unfold angle. rewrite truediv_zero by exact H. reflexivity. Qed.

Lemma _update_body_angles_with_ok (cfg : list (string * body))
    (s : AncientSimulationState) :
  nonzero_periods cfg ->
  _update_body_angles_with cfg s
  = Ok (set_body_angles (angles_of cfg (current_day s) (body_angles s)) s).
Proof.
  intros H. revert s. induction H as [| [name data] rest Hd Hrest IH]; intros s.
  - destruct s; reflexivity.
  - simpl in Hd. simpl. rewrite angle_ok by exact Hd. simpl.
    rewrite IH. reflexivity.
Qed.

(** A zero period anywhere in the table stops the update with
    [ZeroDivisionError]. *)
Lemma _update_body_angles_with_zero (cfg : list (string * body))
    (s : AncientSimulationState) :
  Exists (fun nd => period (snd nd) == 0) cfg ->
  _update_body_angles_with cfg s = Raise ZeroDivisionError.
Proof.
  intros H. revert s. induction cfg as [| [name data] rest IH]; intros s.
  - inversion H.
  - simpl. destruct (Qeq_dec (period data) 0) as [Z | NZ].
    + rewrite angle_zero_period by exact Z. reflexivity.
    + rewrite angle_ok by exact NZ. simpl. apply IH.
      inversion H as [? ? Hd | ? ? Hr]; subst; [contradiction | exact Hr].
Qed.

(** No other exception leaves the update. *)
Lemma _update_body_angles_with_raises (cfg : list (string * body))
    (s : AncientSimulationState) (e : exn) :
  _update_body_angles_with cfg s = Raise e -> e = ZeroDivisionError.
Proof.
  revert s. induction cfg as [| [name data] rest IH]; intros s; simpl.
  - discriminate.
  - unfold angle, truediv. destruct (Qeq_bool (period data) 0); simpl.
    + congruence.
    + apply IH.
Qed.

Lemma GEOCENTRIC_DATA_nonzero : nonzero_periods GEOCENTRIC_DATA.
Proof. unfold nonzero_periods, GEOCENTRIC_DATA. repeat constructor; discriminate. Qed.

Lemma angles_of_lookup (cfg : list (string * body)) (day : Q)
    (m : gmap string Q) (name : string) (data : body) :
  NoDup (fst <$> cfg) -> (name, data) ∈ cfg ->
  angles_of cfg day m !! name = Some (day / period data * 2 * math_pi).
Proof.
  revert m. induction cfg as [| [n d] rest IH]; intros m Hnd Hin.
  - inversion Hin.
  - simpl in Hnd. apply NoDup_cons in Hnd as [Hn Hnd].
    apply elem_of_cons in Hin as [Heq | Hin].
    + injection Heq as -> ->. simpl.
      clear IH Hnd. revert m. induction rest as [| [n' d'] rest IH]; intros m.
      * simpl. apply lookup_insert_eq.
      * simpl. simpl in Hn. apply not_elem_of_cons in Hn as [Hne Hn].
        rewrite insert_insert_ne by congruence. apply IH. exact Hn.
    + simpl. apply IH; assumption.
Qed.

Lemma GEOCENTRIC_DATA_NoDup : NoDup (fst <$> GEOCENTRIC_DATA).
Proof. apply NoDup_ListNoDup. simpl. repeat constructor; simpl; intuition discriminate. Qed.

(** [update] on a running clock. *)
Lemma update_running (s : AncientSimulationState) :
  paused s = false ->
  update s
  = Ok {| current_day := current_day s + time_multiplier s;
          time_multiplier := time_multiplier s;
          paused := false;
          body_angles := angles_of GEOCENTRIC_DATA
                           (current_day s + time_multiplier s) (body_angles s) |}.
Proof.
  intros Hp. unfold update, update_with. rewrite Hp. simpl negb. cbv iota.
  rewrite _update_body_angles_with_ok by exact GEOCENTRIC_DATA_nonzero.
  unfold set_body_angles, set_current_day. simpl. rewrite Hp. reflexivity.
Qed.

Lemma update_running_fields (s s' : AncientSimulationState) :
  paused s = false -> update s = Ok s' ->
  current_day s' = current_day s + time_multiplier s
  /\ time_multiplier s' = time_multiplier s
  /\ paused s' = false
  /\ body_angles s'
     = angles_of GEOCENTRIC_DATA (current_day s') (body_angles s).
Proof.
  intros Hp Hu. rewrite update_running in Hu by exact Hp.
  inversion Hu as [E]. repeat split.
Qed.

(** [update] on a paused clock. *)
Lemma update_paused (s : AncientSimulationState) :
  paused s = true -> update s = Ok s.
Proof. intros Hp. unfold update, update_with. rewrite Hp. reflexivity. Qed.

Lemma update_total (s : AncientSimulationState) : exists s', update s = Ok s'.
Proof.
  destruct (paused s) eqn:Hp.
  - exists s. apply update_paused, Hp.
  - eexists. apply update_running, Hp.
Qed.

End AncientClock.

(** ** The direct angles of the ancient variant *)

Section DirectAngles.

Import AncientConfig Ancient.

Lemma direct_fields (s s' : AncientSimulationState) :
  current_day s' = current_day s -> body_angles s' = body_angles s ->
  direct s -> direct s'.
Proof. unfold direct. intros -> ->. auto. Qed.

Lemma direct_init : direct init.
Proof.
  intros name data Hin. unfold GEOCENTRIC_DATA in Hin.
  repeat (apply elem_of_cons in Hin as [Hin | Hin];
          [injection Hin as -> ->; eexists; split; [reflexivity | reflexivity] |]).
  inversion Hin.
Qed.

Lemma direct_update (s s' : AncientSimulationState) :
  update s = Ok s' -> direct s -> direct s'.
Proof.
  intros Hu Hd. destruct (paused s) eqn:Hp.
  - rewrite update_paused in Hu by exact Hp. injection Hu as <-. exact Hd.
  - destruct (update_running_fields s s' Hp Hu) as (Hday & _ & _ & Hang).
    intros name data Hin. eexists. split; [| reflexivity].
    rewrite Hang.
    apply angles_of_lookup; [exact GEOCENTRIC_DATA_NoDup | exact Hin].
Qed.

Lemma direct_handle_event (ev : event) (a a' : AncientAntikythera) :
  handle_event ev a = Ok a' -> direct (state a) -> direct (state a').
Proof.
  destruct ev as [| [] |]; simpl; intros H Hd; try discriminate;
    injection H as <-; try exact Hd.
  unfold _update_caption, set_current_view. simpl.
  destruct (String.eqb _ "front"); exact Hd.
Qed.

Lemma direct__handle_input (events : list event) (a a' : AncientAntikythera) :
  _handle_input events a = Ok a' -> direct (state a) -> direct (state a').
Proof.
  revert a. induction events as [| ev rest IH]; intros a; simpl.
  - intros [= <-]. auto.
  - destruct (handle_event ev a) as [a1 |] eqn:E; simpl; [| discriminate].
    intros H Hd. apply (IH a1 H). exact (direct_handle_event ev a a1 E Hd).
Qed.

Lemma direct_run (turns : list (list event)) (a a' : AncientAntikythera) :
  run turns a = Ok a' -> direct (state a) -> direct (state a').
Proof.
  revert a. induction turns as [| events rest IH]; intros a; simpl.
  - intros [= <-]. auto.
  - unfold run_turn.
    destruct (_handle_input events a) as [a1 |] eqn:E1; simpl; [| discriminate].
    destruct (update (state a1)) as [s1 |] eqn:E2; simpl; [| discriminate].
    intros H Hd. apply (IH _ H). simpl.
    apply (direct_update _ _ E2). exact (direct__handle_input _ _ _ E1 Hd).
Qed.

(** C5. In the ancient variant the angle of a body is the direct
    function [(current_day / period) * 2 * pi] of the day count: it holds
    of every state the main loop reaches from the initial one, a tick of a
    running clock stores exactly that value for the new day count
    whatever the angles were before, and the function is 0 at day 0 and
    [2 * pi] at [period]. *)
Theorem direct_angles (turns : list (list event)) (a : AncientAntikythera)
    (name : string) (data : body) :
  (name, data) ∈ GEOCENTRIC_DATA ->
  (run turns app_init = Ok a ->
   exists ang, body_angles (state a) !! name = Some ang
               /\ ang == current_day (state a) / period data * 2 * math_pi)
  /\ (forall s, paused s = false ->
        exists s', update s = Ok s'
          /\ current_day s' = current_day s + time_multiplier s
          /\ angle data (current_day s')
             = Ok (current_day s' / period data * 2 * math_pi)
          /\ body_angles s' !! name
             = Some (current_day s' / period data * 2 * math_pi))
  /\ (exists a0 aP, angle data 0 = Ok a0 /\ a0 == 0
                    /\ angle data (period data) = Ok aP /\ aP == 2 * math_pi).
Proof.
  intros Hin.
  assert (~ period data == 0) as Hnz.
  { pose proof GEOCENTRIC_DATA_nonzero as F. unfold nonzero_periods in F.
    rewrite Forall_forall in F. exact (F (name, data) Hin). }
  split; [intros Hrun;
          exact (direct_run turns app_init a Hrun direct_init name data Hin) |].
  split.
  - intros s Hp. destruct (update_total s) as [s' Hu].
    destruct (update_running_fields s s' Hp Hu) as (Hday & _ & _ & Hang).
    exists s'. split; [exact Hu |]. split; [exact Hday |].
    split; [apply angle_ok; exact Hnz |].
    rewrite Hang.
    apply angles_of_lookup; [exact GEOCENTRIC_DATA_NoDup | exact Hin].
  - exists (0 / period data * 2 * math_pi), (period data / period data * 2 * math_pi).
    split; [apply angle_ok; exact Hnz |]. split; [field; exact Hnz |].
    split; [apply angle_ok; exact Hnz |]. field; exact Hnz.
Qed.

(** C5 after five turns of the loop: a faster speed, a pause of one turn,
    a slower speed. *)
Lemma direct_angles_witness :
  exists a ang,
    run [[KEYDOWN K_UP]; []; [KEYDOWN K_SPACE]; [];
         [KEYDOWN K_SPACE; KEYDOWN K_DOWN]] app_init = Ok a
    /\ body_angles (state a) !! "Moon" = Some ang
    /\ ang == current_day (state a) / 27.3 * 2 * math_pi.
Proof.
  set (turns := [[KEYDOWN K_UP]; []; [KEYDOWN K_SPACE]; [];
                 [KEYDOWN K_SPACE; KEYDOWN K_DOWN]]).
  assert (exists a, run turns app_init = Ok a) as [a E]
    by (vm_compute; eexists; reflexivity).
  assert (("Moon", {| period := 27.3; distance := 0.2;
                      color := (200, 200, 200)%Z; size := 5 |})
          ∈ GEOCENTRIC_DATA) as Hin by apply list_elem_of_here.
  destruct (direct_angles turns a "Moon" _ Hin) as (Hreach & _).
  destruct (Hreach E) as (ang & L & Hq).
  exists a, ang. split; [exact E | split; [exact L | exact Hq]].
Defined.

End DirectAngles.

(** ** Pause and speed *)

Section PauseAndSpeed.

Import Ancient.

Lemma modern_update_paused (delta_time : Q) (m : Modern.SimulationState) :
  Modern.paused m = true -> Modern.update delta_time m = Ok m.
Proof. intros Hp. unfold Modern.update. rewrite Hp. reflexivity. Qed.

Lemma updates_paused (n : nat) (s : AncientSimulationState) :
  paused s = true -> updates n s = Ok s.
Proof.
  intros Hp. induction n as [| n IH]; [reflexivity |].
  simpl. rewrite update_paused by exact Hp. exact IH.
Qed.

Lemma modern_updates_paused (deltas : list Q) (m : Modern.SimulationState) :
  Modern.paused m = true -> Modern.updates deltas m = Ok m.
Proof.
  intros Hp. induction deltas as [| d rest IH]; [reflexivity |].
  simpl. rewrite modern_update_paused by exact Hp. exact IH.
Qed.

Lemma toggle_pause_twice (s : AncientSimulationState) :
  toggle_pause (toggle_pause s) = s.
Proof.
  destruct s as [d t p b]. unfold toggle_pause, set_paused. simpl.
  rewrite negb_involutive. reflexivity.
Qed.

Lemma modern_space_twice (a : Modern.ModernAntikythera) (running : bool) :
  Modern.handle_event (Modern.KEYDOWN Modern.K_SPACE)
    (Modern.handle_event (Modern.KEYDOWN Modern.K_SPACE) (a, running))
  = (a, running).
Proof.
  destruct a as [[d t p b] v c]. simpl.
  unfold Modern.set_simulation_state, Modern.set_paused. simpl.
  rewrite negb_involutive. reflexivity.
Qed.

(** C2. A tick on a paused clock changes nothing, for the ancient state
    and, whatever [delta_time], for the modern one.  Pausing a running
    clock, ticking ten times and resuming gives back the very state that
    was paused, so the day count (the date) is unchanged and the next tick
    does what it would have done without the pause. *)
Theorem paused_tick_is_noop (s : AncientSimulationState)
    (m : Modern.SimulationState) (a : Modern.ModernAntikythera)
    (delta_time : Q) :
  (paused s = true -> update s = Ok s)
  /\ (Modern.paused m = true -> Modern.update delta_time m = Ok m)
  /\ (paused s = false ->
      paused (toggle_pause s) = true
      /\ updates 10 (toggle_pause s) = Ok (toggle_pause s)
      /\ current_day (toggle_pause s) = current_day s
      /\ toggle_pause (toggle_pause s) = s
      /\ update (toggle_pause (toggle_pause s)) = update s)
  /\ (Modern.paused (Modern.simulation_state a) = false ->
      forall a1 r1,
        Modern.handle_event (Modern.KEYDOWN Modern.K_SPACE) (a, true) = (a1, r1) ->
        Modern.paused (Modern.simulation_state a1) = true
        /\ Modern.updates (repeat 1.0 10) (Modern.simulation_state a1)
           = Ok (Modern.simulation_state a1)
        /\ Modern.current_date (Modern.simulation_state a1)
           = Modern.current_date (Modern.simulation_state a)
        /\ Modern.handle_event (Modern.KEYDOWN Modern.K_SPACE) (a1, r1) = (a, true)
        /\ Modern.update delta_time
             (Modern.simulation_state
                (fst (Modern.handle_event (Modern.KEYDOWN Modern.K_SPACE) (a1, r1))))
           = Modern.update delta_time (Modern.simulation_state a)).
Proof.
  split; [apply update_paused |].
  split; [apply modern_update_paused |].
  split.
  - intros Hs.
    assert (paused (toggle_pause s) = true) as Ht by (simpl; rewrite Hs; reflexivity).
    split; [exact Ht |].
    split; [apply updates_paused; exact Ht |].
    split; [reflexivity |].
    split; [apply toggle_pause_twice |].
    rewrite toggle_pause_twice. reflexivity.
  - intros Ha a1 r1 H1.
    assert (Modern.paused (Modern.simulation_state a1) = true) as Ht
      by (simpl in H1; injection H1 as <- <-; simpl; rewrite Ha; reflexivity).
    assert (Modern.handle_event (Modern.KEYDOWN Modern.K_SPACE) (a1, r1) = (a, true))
      as Hback by (rewrite <- H1; apply modern_space_twice).
    split; [exact Ht |].
    split; [apply modern_updates_paused; exact Ht |].
    split; [simpl in H1; injection H1 as <- <-; reflexivity |].
    split; [exact Hback |].
    rewrite Hback. reflexivity.
Qed.

(** C2 on the initial states, the ancient one paused and running, the
    modern one paused, started at the first microsecond of 2026. *)
Lemma paused_tick_is_noop_witness :
  let now := ((739617 - 1) * DateTime.us_per_day)%Z in
  update (toggle_pause init) = Ok (toggle_pause init)
  /\ Modern.update 1.0 (Modern.set_paused true (Modern.init now))
     = Ok (Modern.set_paused true (Modern.init now))
  /\ updates 10 (toggle_pause init) = Ok (toggle_pause init)
  /\ update (toggle_pause (toggle_pause init)) = update init.
Proof.
  intros now.
  destruct (paused_tick_is_noop (toggle_pause init)
              (Modern.set_paused true (Modern.init now)) (Modern.app_init now) 1.0)
    as (U & M & _ & _).
  destruct (paused_tick_is_noop init
              (Modern.set_paused true (Modern.init now)) (Modern.app_init now) 1.0)
    as (_ & _ & S & _).
  assert (paused (toggle_pause init) = true) as Hp by reflexivity.
  assert (Modern.paused (Modern.set_paused true (Modern.init now)) = true)
    as Hpm by reflexivity.
  assert (paused init = false) as Hs by reflexivity.
  destruct (S Hs) as (_ & T & _ & _ & R).
  split; [exact (U Hp) |]. split; [exact (M Hpm) |].
  split; [exact T | exact R].
Defined.


End PauseAndSpeed.

(** ** Errors *)

Section Errors.

Import AncientConfig Ancient.

Lemma advance_planets_raises (cfg : list (string * ModernConfig.planet))
    (delta_time : Q) (m : Modern.SimulationState) (e : exn) :
  Modern.advance_planets cfg delta_time m = Raise e -> e = KeyError.
Proof.
  revert m. induction cfg as [| [name data] rest IH]; intros m; simpl.
  - discriminate.
  - destruct (Modern.planet_angles m !! name); [apply IH | congruence].
Qed.

Lemma modern_update_raises (delta_time : Q) (m : Modern.SimulationState)
    (e : exn) :
  Modern.update delta_time m = Raise e -> e = OverflowError \/ e = KeyError.
Proof.
  unfold Modern.update. destruct (negb (Modern.paused m)); [| discriminate].
  destruct (DateTime.timedelta_days _) as [td | e1] eqn:E1; cbn [Py.bind].
  - destruct (DateTime.add _ td) as [d | e2] eqn:E2; cbn [Py.bind].
    + intros H. right. exact (advance_planets_raises _ _ _ _ H).
    + intros [= <-]. left. unfold DateTime.add in E2.
      destruct (_ && _) in E2; congruence.
  - intros [= <-]. left. unfold DateTime.timedelta_days in E1.
    destruct (_ >? _)%Z in E1; congruence.
Qed.

(** C3, as the code has it. A zero period makes the arithmetic fail at
    once, with Python's [ZeroDivisionError]: the division and the modulo
    raise it, so does the ancient update when the clock runs and some
    period of its table is zero, and it is the only exception the ancient
    update can raise; with the periods of [GEOCENTRIC_DATA] it raises
    none.  The modern update divides by no period; it can raise
    [OverflowError] or [KeyError] and nothing else. *)
Theorem zero_period_fails_fast (cfg : list (string * body))
    (s : AncientSimulationState) (x P : Q) :
  (P == 0 ->
   truediv x P = Raise ZeroDivisionError
   /\ float_mod x P = Raise ZeroDivisionError)
  /\ (Exists (fun nd => period (snd nd) == 0) cfg -> paused s = false ->
      update_with cfg s = Raise ZeroDivisionError)
  /\ (forall e, update_with cfg s = Raise e -> e = ZeroDivisionError)
  /\ (exists s', update s = Ok s')
  /\ (forall delta_time m e,
        Modern.update delta_time m = Raise e -> e = OverflowError \/ e = KeyError).
Proof.
  split.
  { intros HP. split; [apply truediv_zero; exact HP |].
    unfold float_mod. rewrite (Qeq_eq_bool _ _ HP). reflexivity. }
  split.
  { intros Hz Hp. unfold update_with. rewrite Hp. simpl negb. cbv iota.
    apply _update_body_angles_with_zero. exact Hz. }
  split.
  { intros e. unfold update_with.
    destruct (negb (paused s)); [apply _update_body_angles_with_raises | discriminate]. }
  split; [apply update_total |].
  exact modern_update_raises.
Qed.

(** C3 on a table whose only body has period 0. *)
Lemma zero_period_fails_fast_witness :
  truediv 1 0 = Raise ZeroDivisionError
  /\ update_with
       [("Moon", {| period := 0; distance := 0.2;
                    color := (200, 200, 200)%Z; size := 5 |})] init
     = Raise ZeroDivisionError.
Proof.
  destruct (zero_period_fails_fast
              [("Moon", {| period := 0; distance := 0.2;
                           color := (200, 200, 200)%Z; size := 5 |})]
              init 1 0) as (D & U & _).
  assert (0 == 0) as HP by reflexivity.
  assert (paused init = false) as Hp by reflexivity.
  split; [exact (proj1 (D HP)) |].
  apply U; [| exact Hp]. apply Exists_cons_hd. reflexivity.
Defined.

(** C3 as stated fails: the exception of a zero period is Python's
    [ZeroDivisionError], not an InvalidParameter, and it is not the only
    one of the core: the modern update raises [OverflowError] when a tick
    takes the date past 9999-12-31. *)
Lemma zero_period_InvalidParameter_counterexample :
  let cfg := [("Moon", {| period := 0; distance := 0.2;
                          color := (200, 200, 200)%Z; size := 5 |})] in
  let last_us := (DateTime.MAXORDINAL * DateTime.us_per_day - 1)%Z in
  update_with cfg (init_with cfg) = Raise ZeroDivisionError
  /\ ~ (exists e, update_with cfg (init_with cfg) = Raise e
                  /\ exn_name e = "InvalidParameter")
  /\ Modern.update 1.0 (Modern.init last_us) = Raise OverflowError
  /\ ~ (forall delta_time m e,
          Modern.update delta_time m = Raise e -> e = ZeroDivisionError).
Proof.
  intros cfg last_us.
  assert (update_with cfg (init_with cfg) = Raise ZeroDivisionError) as A
    by reflexivity.
  assert (Modern.update 1.0 (Modern.init last_us) = Raise OverflowError) as B
    by (vm_compute; reflexivity).
  split; [exact A |]. split.
  - intros (e & He & Hn). rewrite A in He. injection He as <-. discriminate Hn.
  - split; [exact B |]. intros H. specialize (H _ _ _ B). discriminate H.
Qed.

End Errors.

(** ** One Metonic cycle *)

Section MetonicCycle.

Import Ancient AncientBackRenderer.

Lemma current_month_comp (d d' : Q) :
  d == d' -> current_month d == current_month d'.
Proof.
  intros E. unfold current_month. apply fmod_comp; [| reflexivity].
  rewrite E. reflexivity.
Qed.

Lemma pointer_t_comp (d d' : Q) : d == d' -> pointer_t d == pointer_t d'.
Proof.
  intros E. unfold pointer_t. rewrite (current_month_comp d d' E). reflexivity.
Qed.

(** The day count after [n] ticks of a running clock. *)
Lemma updates_running (n : nat) (s : AncientSimulationState) :
  paused s = false ->
  exists s', updates n s = Ok s'
    /\ current_day s' == current_day s + inject_Z (Z.of_nat n) * time_multiplier s
    /\ time_multiplier s' = time_multiplier s
    /\ paused s' = false.
Proof.
  revert s. induction n as [| n IH]; intros s Hp.
  - exists s. split; [reflexivity |]. split; [| split; [reflexivity | exact Hp]].
    change (inject_Z (Z.of_nat 0)) with 0. ring.
  - destruct (update_total s) as [s1 H1].
    destruct (update_running_fields s s1 Hp H1) as (Hd & Ht & Hp1 & _).
    destruct (IH s1 Hp1) as (s' & Hs' & Hd' & Ht' & Hp').
    exists s'. cbn [updates]. rewrite H1. cbn [Py.bind].
    split; [exact Hs' |]. split; [| split; [congruence | exact Hp']].
    rewrite Hd', Hd, Ht, Nat2Z.inj_succ, <- Z.add_1_r, inject_Z_plus.
    change (inject_Z 1) with 1. ring.
Qed.

(** C8. From the initial state (day 0, multiplier 1.0, running) 6940
    ticks are the first to complete the 235 synodic months of a Metonic
    cycle, 6939.688415 days.  The clock then reads day 6940, the Metonic
    pointer has gone round to less than a ten-thousandth of the dial and
    the month it points at is month 0; one tick earlier it was still in
    month 234, the last of the cycle. *)
Theorem metonic_cycle_completed :
  exists s s_before,
    updates (Z.to_nat 6940) init = Ok s
    /\ current_day s == 6940
    /\ time_multiplier s == 1 /\ paused s = false
    /\ total_months * synodic_month_days <= current_day s
    /\ current_day s < total_months * synodic_month_days + 1
    /\ Qfloor (current_month (current_day s)) = 0%Z
    /\ 0 <= pointer_t (current_day s)
    /\ pointer_t (current_day s) < 1 # 10000
    /\ updates (Z.to_nat 6939) init = Ok s_before
    /\ current_day s_before < total_months * synodic_month_days
    /\ Qfloor (current_month (current_day s_before)) = 234%Z.
Proof.
  destruct (updates_running (Z.to_nat 6940) init eq_refl) as (s & Hs & Hd & Ht & Hp).
  destruct (updates_running (Z.to_nat 6939) init eq_refl) as (b & Hb & Hbd & _ & _).
  assert (current_day s == 6940) as E by (rewrite Hd; reflexivity).
  assert (current_day b == 6939) as Eb by (rewrite Hbd; reflexivity).
  exists s, b.
  split; [exact Hs |]. split; [exact E |].
  split; [rewrite Ht; reflexivity |]. split; [exact Hp |].
  split; [rewrite E; vm_compute; congruence |].
  split; [rewrite E; reflexivity |].
  split; [rewrite (current_month_comp _ _ E); reflexivity |].
  split; [rewrite (pointer_t_comp _ _ E); vm_compute; congruence |].
  split; [rewrite (pointer_t_comp _ _ E); reflexivity |].
  split; [exact Hb |].
  split; [rewrite Eb; reflexivity |].
  rewrite (current_month_comp _ _ Eb). reflexivity.
Qed.

End MetonicCycle.

(** ** The recorders *)

Section Recorders.

Import Ancient.

(** The recording loop of the ancient recorder is [n] updates of the
    state; view and caption are not touched. *)
Lemma ancient_record_frames_updates (n : nat) (a : AncientAntikythera) :
  AncientRecorder.record_frames n a
  = let* s' := updates n (state a) in Ok (set_state s' a).
Proof.
  revert a. induction n as [| n IH]; intros a.
  - destruct a; reflexivity.
  - cbn [AncientRecorder.record_frames updates].
    destruct (update (state a)) as [s1 | e]; cbn [Py.bind]; [| reflexivity].
    rewrite IH. reflexivity.
Qed.

Lemma modern_advance_planets_fields (cfg : list (string * ModernConfig.planet))
    (delta_time : Q) (m m' : Modern.SimulationState) :
  Modern.advance_planets cfg delta_time m = Ok m' ->
  Modern.current_date m' = Modern.current_date m
  /\ Modern.time_multiplier m' = Modern.time_multiplier m
  /\ Modern.paused m' = Modern.paused m.
Proof.
  revert m. induction cfg as [| [name data] rest IH]; intros m; cbn [Modern.advance_planets].
  - intros [= <-]. repeat split.
  - destruct (Modern.planet_angles m !! name) as [a |]; [| discriminate].
    intros H. destruct (IH _ H) as (Hd & Ht & Hp). repeat split; assumption.
Qed.

(** A tick of the running modern clock moves the date by the rounded
    [timedelta] and keeps multiplier and pause flag. *)
Lemma modern_update_running_fields (delta_time : Q)
    (m m' : Modern.SimulationState) :
  Modern.paused m = false -> Modern.update delta_time m = Ok m' ->
  exists td,
    DateTime.timedelta_days (Modern.time_multiplier m * delta_time) = Ok td
    /\ Modern.current_date m' = (Modern.current_date m + td)%Z
    /\ Modern.time_multiplier m' = Modern.time_multiplier m
    /\ Modern.paused m' = false.
Proof.
  intros Hp. unfold Modern.update. rewrite Hp. cbn [negb].
  destruct (DateTime.timedelta_days _) as [td | e1]; cbn [Py.bind]; [| discriminate].
  destruct (DateTime.add _ td) as [d | e2] eqn:E2; cbn [Py.bind]; [| discriminate].
  intros H. destruct (modern_advance_planets_fields _ _ _ _ H) as (Hd & Ht & Hq).
  exists td. split; [reflexivity |].
  unfold DateTime.add in E2. destruct (_ && _) in E2; [| discriminate].
  injection E2 as <-. cbn in Hd, Ht, Hq.
  split; [exact Hd |]. split; [exact Ht |]. rewrite Hq. exact Hp.
Qed.

(** The date after the ticks [deltas] of a running modern clock. *)
Lemma modern_updates_running (deltas : list Q) (m m' : Modern.SimulationState) :
  Modern.paused m = false -> Modern.updates deltas m = Ok m' ->
  exists tds : list Z,
    Forall2 (fun d td =>
               DateTime.timedelta_days (Modern.time_multiplier m * d) = Ok td)
            deltas tds
    /\ Modern.current_date m' = (Modern.current_date m + foldr Z.add 0 tds)%Z
    /\ Modern.time_multiplier m' = Modern.time_multiplier m
    /\ Modern.paused m' = false.
Proof.
  revert m. induction deltas as [| d rest IH]; intros m Hp; cbn [Modern.updates].
  - intros [= <-]. exists []. split; [constructor |].
    split; [simpl; lia |]. split; [reflexivity | exact Hp].
  - destruct (Modern.update d m) as [m1 | e] eqn:E1; cbn [Py.bind]; [| discriminate].
    intros H.
    destruct (modern_update_running_fields d m m1 Hp E1) as (td & Htd & Hd & Ht & Hp1).
    destruct (IH m1 Hp1 H) as (tds & Hall & Hd' & Ht' & Hp').
    exists (td :: tds). rewrite Ht in Hall, Ht'.
    split; [constructor; assumption |].
    split; [simpl; lia |]. split; assumption.
Qed.

(** The recording loop of the modern recorder is one update for each
    reading of the clock. *)
Lemma modern_record_frames_updates (n : nat) (tick_ms : nat -> Z)
    (a : Modern.ModernAntikythera) :
  ModernRecorder.record_frames n tick_ms a
  = let* s' := Modern.updates
                 (map (fun i => Modern.delta_time_of (tick_ms i)) (seq 0 n))
                 (Modern.simulation_state a) in
    Ok (Modern.set_simulation_state s' a).
Proof.
  revert tick_ms a. induction n as [| n IH]; intros tick_ms a.
  - destruct a; reflexivity.
  - cbn [ModernRecorder.record_frames seq map Modern.updates].
    destruct (Modern.update _ (Modern.simulation_state a)) as [s1 | e];
      cbn [Py.bind]; [| reflexivity].
    rewrite IH. cbn [Modern.simulation_state Modern.set_simulation_state].
    rewrite <- seq_shift, map_map. reflexivity.
Qed.

Lemma state__update_caption (a : AncientAntikythera) :
  state (_update_caption a) = state a
  /\ current_view (_update_caption a) = current_view a.
Proof. unfold _update_caption. destruct (String.eqb _ _); split; reflexivity. Qed.

Lemma modern_state__update_caption (a : Modern.ModernAntikythera) :
  Modern.simulation_state (Modern._update_caption a) = Modern.simulation_state a
  /\ Modern.current_view (Modern._update_caption a) = Modern.current_view a.
Proof.
  unfold Modern._update_caption. destruct (String.eqb _ _); split; reflexivity.
Qed.

(** What a recording that takes place leaves in the ancient application. *)
Lemma ancient_start_recording_run (view : string)
    (speed_multiplier duration_seconds : Q)
    (r r' : AncientRecorder.AncientSimulationRecorder) :
  AncientRecorder.recording r = false ->
  AncientRecorder.start_recording view speed_multiplier duration_seconds r
    = Ok r' ->
  exists s5,
    updates (Z.to_nat (Py.int (duration_seconds * 60)))
      (set_paused false
         (set_time_multiplier speed_multiplier (state (AncientRecorder.app r))))
    = Ok s5
    /\ current_view (AncientRecorder.app r') = current_view (AncientRecorder.app r)
    /\ state (AncientRecorder.app r')
       = set_paused (paused (state (AncientRecorder.app r)))
           (set_time_multiplier (time_multiplier (state (AncientRecorder.app r))) s5).
Proof.
  intros Rr. unfold AncientRecorder.start_recording. rewrite Rr.
  rewrite ancient_record_frames_updates.
  rewrite (proj1 (state__update_caption _)). cbn [state set_state].
  destruct (updates _ _) as [s5 | e]; cbn [Py.bind]; [| discriminate].
  intros [= <-]. exists s5. split; [reflexivity |].
  cbn [AncientRecorder.app].
  rewrite (proj1 (state__update_caption _)), (proj2 (state__update_caption _)).
  split; reflexivity.
Qed.

Lemma ancient_start_recording_settings (view : string)
    (speed_multiplier duration_seconds : Q)
    (r r' : AncientRecorder.AncientSimulationRecorder) :
  AncientRecorder.start_recording view speed_multiplier duration_seconds r
    = Ok r' ->
  current_view (AncientRecorder.app r') = current_view (AncientRecorder.app r)
  /\ time_multiplier (state (AncientRecorder.app r'))
     = time_multiplier (state (AncientRecorder.app r))
  /\ paused (state (AncientRecorder.app r'))
     = paused (state (AncientRecorder.app r)).
Proof.
  intros H. destruct (AncientRecorder.recording r) eqn:Rr.
  - unfold AncientRecorder.start_recording in H. rewrite Rr in H.
    injection H as <-. repeat split.
  - destruct (ancient_start_recording_run _ _ _ _ _ Rr H) as (s5 & _ & Ev & Es).
    rewrite Ev, Es. repeat split.
Qed.

(** The same for the modern application. *)
Lemma modern_start_recording_run (view : string)
    (speed_multiplier duration_seconds : Q) (tick_ms : nat -> Z)
    (m m' : ModernRecorder.SimulationRecorder) :
  ModernRecorder.recording m = false ->
  ModernRecorder.start_recording view speed_multiplier duration_seconds tick_ms m
    = Ok m' ->
  exists s5,
    Modern.updates
      (map (fun i => Modern.delta_time_of (tick_ms i))
         (seq 0 (Z.to_nat (Py.int (duration_seconds * 60)))))
      (Modern.set_paused false
         (Modern.set_time_multiplier speed_multiplier
            (Modern.simulation_state (ModernRecorder.app m))))
    = Ok s5
    /\ Modern.current_view (ModernRecorder.app m')
       = Modern.current_view (ModernRecorder.app m)
    /\ Modern.simulation_state (ModernRecorder.app m')
       = Modern.set_paused
           (Modern.paused (Modern.simulation_state (ModernRecorder.app m)))
           (Modern.set_time_multiplier
              (Modern.time_multiplier (Modern.simulation_state (ModernRecorder.app m)))
              s5).
Proof.
  intros Rm. unfold ModernRecorder.start_recording. rewrite Rm.
  rewrite modern_record_frames_updates.
  rewrite (proj1 (modern_state__update_caption _)).
  cbn [Modern.simulation_state Modern.set_simulation_state].
  destruct (Modern.updates _ _) as [s5 | e]; cbn [Py.bind]; [| discriminate].
  intros [= <-]. exists s5. split; [reflexivity |].
  cbn [ModernRecorder.app].
  rewrite (proj1 (modern_state__update_caption _)),
          (proj2 (modern_state__update_caption _)).
  split; reflexivity.
Qed.

Lemma modern_start_recording_settings (view : string)
    (speed_multiplier duration_seconds : Q) (tick_ms : nat -> Z)
    (m m' : ModernRecorder.SimulationRecorder) :
  ModernRecorder.start_recording view speed_multiplier duration_seconds tick_ms m
    = Ok m' ->
  Modern.current_view (ModernRecorder.app m')
    = Modern.current_view (ModernRecorder.app m)
  /\ Modern.time_multiplier (Modern.simulation_state (ModernRecorder.app m'))
     = Modern.time_multiplier (Modern.simulation_state (ModernRecorder.app m))
  /\ Modern.paused (Modern.simulation_state (ModernRecorder.app m'))
     = Modern.paused (Modern.simulation_state (ModernRecorder.app m)).
Proof.
  intros H. destruct (ModernRecorder.recording m) eqn:Rm.
  - unfold ModernRecorder.start_recording in H. rewrite Rm in H.
    injection H as <-. repeat split.
  - destruct (modern_start_recording_run _ _ _ _ _ _ Rm H) as (s5 & _ & Ev & Es).
    rewrite Ev, Es. repeat split.
Qed.

(** C10. When [start_recording] returns, the view, the time multiplier
    and the pause flag of the application are the ones it had before the
    call, in both variants.  The clock is not put back: if a recording
    took place (no other was running), the day count and the angles of
    the ancient state are those left by the recorded ticks, the day count
    being the old one plus the recording speed for each frame (and so
    another one, when there is a frame and the speed is not zero), and
    the date and the angles of the modern state are those left by one
    update for each reading of the clock, the date being the old one plus
    the [timedelta]s of the frames. *)
Theorem start_recording_restores_settings_only
    (view : string) (speed_multiplier duration_seconds : Q)
    (tick_ms : nat -> Z)
    (r r' : AncientRecorder.AncientSimulationRecorder)
    (m m' : ModernRecorder.SimulationRecorder) :
  let a := AncientRecorder.app r in
  let a' := AncientRecorder.app r' in
  let b := ModernRecorder.app m in
  let b' := ModernRecorder.app m' in
  let frames := Z.to_nat (Py.int (duration_seconds * 60)) in
  (AncientRecorder.start_recording view speed_multiplier duration_seconds r
     = Ok r' ->
   (current_view a' = current_view a
    /\ time_multiplier (state a') = time_multiplier (state a)
    /\ paused (state a') = paused (state a))
   /\ (AncientRecorder.recording r = false ->
       exists s5,
         updates frames
           (set_paused false (set_time_multiplier speed_multiplier (state a)))
         = Ok s5
         /\ current_day (state a') = current_day s5
         /\ body_angles (state a') = body_angles s5
         /\ current_day (state a')
            == current_day (state a)
               + inject_Z (Z.of_nat frames) * speed_multiplier
         /\ ((0 < frames)%nat -> ~ speed_multiplier == 0 ->
             ~ current_day (state a') == current_day (state a))))
  /\ (ModernRecorder.start_recording view speed_multiplier duration_seconds
        tick_ms m = Ok m' ->
      (Modern.current_view b' = Modern.current_view b
       /\ Modern.time_multiplier (Modern.simulation_state b')
          = Modern.time_multiplier (Modern.simulation_state b)
       /\ Modern.paused (Modern.simulation_state b')
          = Modern.paused (Modern.simulation_state b))
      /\ (ModernRecorder.recording m = false ->
          exists s5 tds,
            Modern.updates
              (map (fun i => Modern.delta_time_of (tick_ms i)) (seq 0 frames))
              (Modern.set_paused false
                 (Modern.set_time_multiplier speed_multiplier
                    (Modern.simulation_state b)))
            = Ok s5
            /\ Modern.current_date (Modern.simulation_state b')
               = Modern.current_date s5
            /\ Modern.planet_angles (Modern.simulation_state b')
               = Modern.planet_angles s5
            /\ Forall2 (fun i td =>
                          DateTime.timedelta_days
                            (speed_multiplier * Modern.delta_time_of (tick_ms i))
                          = Ok td)
                       (seq 0 frames) tds
            /\ Modern.current_date (Modern.simulation_state b')
               = (Modern.current_date (Modern.simulation_state b)
                  + foldr Z.add 0 tds)%Z)).
Proof.
  intros a a' b b' frames. split.
  - intros Hr.
    split; [exact (ancient_start_recording_settings _ _ _ _ _ Hr) |].
    intros Rr.
    destruct (ancient_start_recording_run _ _ _ _ _ Rr Hr) as (s5 & E5 & _ & Es).
    destruct (updates_running frames
                (set_paused false (set_time_multiplier speed_multiplier (state a)))
                eq_refl) as (s5' & E5' & Hd & _ & _).
    fold frames a in E5. rewrite E5 in E5'. injection E5' as <-.
    exists s5. subst a'. rewrite Es.
    split; [exact E5 |]. split; [reflexivity |]. split; [reflexivity |].
    split; [exact Hd |].
    intros Hn Hz Heq.
    cbn [current_day time_multiplier set_paused set_time_multiplier] in Hd, Heq.
    rewrite Hd in Heq. apply Hz.
    assert (0 < inject_Z (Z.of_nat frames)) as Hpos
      by (change 0 with (inject_Z 0); rewrite <- Zlt_Qlt; lia).
    assert (inject_Z (Z.of_nat frames) * speed_multiplier == 0) as Hm0.
    { set (x := inject_Z (Z.of_nat frames) * speed_multiplier) in *.
      clearbody x. lra. }
    apply Qmult_integral in Hm0. destruct Hm0 as [Hm0 | Hm0]; [lra | exact Hm0].
  - intros Hm.
    split; [exact (modern_start_recording_settings _ _ _ _ _ _ Hm) |].
    intros Rm.
    destruct (modern_start_recording_run _ _ _ _ _ _ Rm Hm) as (s5 & E5 & _ & Es).
    fold frames b in E5.
    assert (Modern.paused
              (Modern.set_paused false
                 (Modern.set_time_multiplier speed_multiplier
                    (Modern.simulation_state b))) = false) as Hp by reflexivity.
    destruct (modern_updates_running _ _ _ Hp E5)
      as (tds & Hall & Hd & _ & _).
    exists s5, tds. subst b'. rewrite Es.
    split; [exact E5 |]. split; [reflexivity |]. split; [reflexivity |].
    split; [| exact Hd].
    clear -Hall. cbn [Modern.time_multiplier Modern.set_paused
                      Modern.set_time_multiplier] in Hall.
    rewrite Forall2_fmap_l in Hall. exact Hall.
Qed.

(** C10 on the two initial applications, the modern one started at the
    first microsecond of 2026: three frames of the back view at speed 2,
    the clock reporting 17 ms for each frame. *)
Lemma start_recording_restores_settings_only_witness :
  let now := ((739617 - 1) * DateTime.us_per_day)%Z in
  exists r' m',
    AncientRecorder.start_recording "back" 2.0 0.05
      {| AncientRecorder.app := app_init; AncientRecorder.recording := false |}
    = Ok r'
    /\ ModernRecorder.start_recording "back" 2.0 0.05 (fun _ => 17%Z)
         {| ModernRecorder.app := Modern.app_init now;
            ModernRecorder.recording := false |}
       = Ok m'
    /\ current_view (AncientRecorder.app r') = "front"
    /\ time_multiplier (state (AncientRecorder.app r')) = 1.0
    /\ paused (state (AncientRecorder.app r')) = false
    /\ current_day (state (AncientRecorder.app r')) == 6
    /\ Modern.current_view (ModernRecorder.app m') = "front"
    /\ Modern.time_multiplier (Modern.simulation_state (ModernRecorder.app m')) = 1.0
    /\ Modern.paused (Modern.simulation_state (ModernRecorder.app m')) = false.
Proof.
  intros now.
  set (r := {| AncientRecorder.app := app_init;
               AncientRecorder.recording := false |}).
  set (m := {| ModernRecorder.app := Modern.app_init now;
               ModernRecorder.recording := false |}).
  assert (exists r', AncientRecorder.start_recording "back" 2.0 0.05 r = Ok r')
    as [r' Hr] by (vm_compute; eexists; reflexivity).
  assert (exists m', ModernRecorder.start_recording "back" 2.0 0.05
                       (fun _ => 17%Z) m = Ok m')
    as [m' Hm] by (vm_compute; eexists; reflexivity).
  destruct (start_recording_restores_settings_only
              "back" 2.0 0.05 (fun _ => 17%Z) r r' m m') as (HA & HM).
  destruct (HA Hr) as ((Av & At & Ap) & Ar).
  destruct (HM Hm) as ((Mv & Mt & Mp) & _).
  destruct (Ar eq_refl) as (s5 & _ & _ & _ & Hd & _).
  exists r', m'.
  split; [exact Hr |]. split; [exact Hm |].
  split; [exact Av |]. split; [exact At |]. split; [exact Ap |].
  split; [rewrite Hd; reflexivity |].
  split; [exact Mv |]. split; [exact Mt | exact Mp].
Defined.

End Recorders.

(** ** Determinism *)

Section Determinism.

Import Ancient.

Lemma same_angles_refl (m : gmap string Q) : same_angles m m.
Proof.
  intros name. destruct (m !! name); constructor. reflexivity.
Qed.

Lemma same_state_refl (s : AncientSimulationState) : same_state s s.
Proof. repeat split; try reflexivity. apply same_angles_refl. Qed.

Lemma modern_same_state_refl (m : Modern.SimulationState) : modern_same_state m m.
Proof. repeat split; try reflexivity. apply same_angles_refl. Qed.

Lemma same_angles_insert (m m' : gmap string Q) (k : string) (a a' : Q) :
  same_angles m m' -> a == a' -> same_angles (<[k := a]> m) (<[k := a']> m').
Proof.
  intros Hm Ha name. destruct (decide (k = name)) as [-> | Hne].
  - rewrite !lookup_insert_eq. constructor. exact Ha.
  - rewrite !lookup_insert_ne by exact Hne. apply Hm.
Qed.

Lemma _update_body_angles_with_same (cfg : list (string * AncientConfig.body))
    (s t : AncientSimulationState) :
  same_state s t ->
  same_result same_state
    (_update_body_angles_with cfg s) (_update_body_angles_with cfg t).
Proof.
  revert s t. induction cfg as [| [name data] rest IH]; intros s t H.
  - exact H.
  - cbn [_update_body_angles_with]. unfold angle, truediv.
    destruct (Qeq_bool (AncientConfig.period data) 0); cbn [Py.bind same_result].
    + reflexivity.
    + apply IH. destruct H as (Hd & Ht & Hp & Ha).
      repeat split; cbn; try assumption.
      apply same_angles_insert; [exact Ha |]. rewrite Hd. reflexivity.
Qed.

Lemma update_same (s t : AncientSimulationState) :
  same_state s t -> same_result same_state (update s) (update t).
Proof.
  intros H. unfold update, update_with.
  destruct H as (Hd & Ht & Hp & Ha). rewrite <- Hp.
  destruct (paused s) eqn:Ps; cbn [negb].
  - repeat split; try assumption. congruence.
  - apply _update_body_angles_with_same.
    repeat split; cbn; try assumption; [| congruence].
    rewrite Hd, Ht. reflexivity.
Qed.

Lemma round_comp (x y : Q) : x == y -> Py.round x = Py.round y.
Proof.
  intros E. unfold Py.round. rewrite (Qfloor_comp x y E).
  assert (x - inject_Z (Qfloor y) == y - inject_Z (Qfloor y)) as E'
    by (rewrite E; reflexivity).
  rewrite (Qcompare_comp _ _ E' (1 # 2) (1 # 2) (Qeq_refl _)). reflexivity.
Qed.

Lemma timedelta_days_comp (x y : Q) :
  x == y -> DateTime.timedelta_days x = DateTime.timedelta_days y.
Proof.
  intros E. unfold DateTime.timedelta_days.
  rewrite (round_comp (x * inject_Z DateTime.us_per_day)
             (y * inject_Z DateTime.us_per_day)) by (rewrite E; reflexivity).
  reflexivity.
Qed.

Lemma advance_planets_same (cfg : list (string * ModernConfig.planet))
    (d d' : Q) (m n : Modern.SimulationState) :
  d == d' -> modern_same_state m n ->
  same_result modern_same_state
    (Modern.advance_planets cfg d m) (Modern.advance_planets cfg d' n).
Proof.
  intros Hdd. revert m n. induction cfg as [| [name data] rest IH]; intros m n H.
  - exact H.
  - cbn [Modern.advance_planets]. destruct H as (Hd & Ht & Hp & Ha).
    pose proof (Ha name) as Hn.
    destruct Hn as [a a' Haa |]; cbn [same_result]; [| reflexivity].
    apply IH. repeat split; cbn; try assumption.
    apply same_angles_insert; [exact Ha |].
    unfold radians. rewrite Haa, Ht, Hdd. reflexivity.
Qed.

Lemma modern_update_same (d d' : Q) (m n : Modern.SimulationState) :
  d == d' -> modern_same_state m n ->
  same_result modern_same_state (Modern.update d m) (Modern.update d' n).
Proof.
  intros Hdd H. unfold Modern.update.
  pose proof H as (Hd & Ht & Hp & Ha). rewrite <- Hp.
  destruct (Modern.paused m) eqn:Pm; cbn [negb]; [exact H |].
  rewrite (timedelta_days_comp (Modern.time_multiplier m * d)
             (Modern.time_multiplier n * d')) by (rewrite Ht, Hdd; reflexivity).
  destruct (DateTime.timedelta_days _) as [td | e]; cbn [Py.bind same_result];
    [| reflexivity].
  rewrite <- Hd.
  destruct (DateTime.add _ td) as [dt | e]; cbn [Py.bind same_result];
    [| reflexivity].
  apply advance_planets_same; [exact Hdd |].
  repeat split; cbn; try assumption. congruence.
Qed.

Lemma modern_updates_same (ds ds' : list Q) (m n : Modern.SimulationState) :
  Forall2 Qeq ds ds' -> modern_same_state m n ->
  same_result modern_same_state (Modern.updates ds m) (Modern.updates ds' n).
Proof.
  intros Hds. revert m n.
  induction Hds as [| d d' ds ds' Hd Hds IH]; intros m n H.
  - exact H.
  - cbn [Modern.updates]. pose proof (modern_update_same d d' m n Hd H) as U.
    destruct (Modern.update d m) as [m1 | e1];
      destruct (Modern.update d' n) as [n1 | e2]; cbn [same_result] in U;
      cbn [Py.bind same_result]; try contradiction; [apply IH; exact U | exact U].
Qed.

(** C6. A tick is a function of the state it starts from and of nothing
    else: two ticks from states that hold the same numbers end in states
    that hold the same numbers, or raise the same exception, for the
    ancient [update()] and for the modern [update(1.0)]; and replaying
    equal sequences of [delta_time]s from such states ends with the same
    angle for every planet. *)
Theorem tick_deterministic (s t : AncientSimulationState)
    (m n : Modern.SimulationState) (deltas deltas' : list Q) :
  (same_state s t -> same_result same_state (update s) (update t))
  /\ (modern_same_state m n ->
      same_result modern_same_state (Modern.update 1.0 m) (Modern.update 1.0 n))
  /\ (modern_same_state m n -> Forall2 Qeq deltas deltas' ->
      same_result modern_same_state
        (Modern.updates deltas m) (Modern.updates deltas' n)
      /\ forall m' n',
          Modern.updates deltas m = Ok m' -> Modern.updates deltas' n = Ok n' ->
          forall name,
            option_Forall2 Qeq
              (Modern.planet_angles m' !! name) (Modern.planet_angles n' !! name))
  /\ (forall m' m'',
        Modern.updates deltas m = Ok m' -> Modern.updates deltas m = Ok m'' ->
        Modern.planet_angles m' = Modern.planet_angles m'').
Proof.
  split; [apply update_same |].
  split; [apply modern_update_same; reflexivity |].
  split.
  - intros Hm Hd.
    pose proof (modern_updates_same deltas deltas' m n Hd Hm) as U.
    split; [exact U |].
    intros m' n' E1 E2. rewrite E1, E2 in U. destruct U as (_ & _ & _ & Ha).
    exact Ha.
  - intros m' m'' E1 E2. rewrite E1 in E2. injection E2 as <-. reflexivity.
Qed.

(** C6 on the two initial states, the numbers of the second written with
    other fractions. *)
Lemma tick_deterministic_witness :
  let now := ((739617 - 1) * DateTime.us_per_day)%Z in
  same_result same_state
    (update init)
    (update (set_time_multiplier (2 # 2) (set_current_day (0 # 5) init)))
  /\ same_result modern_same_state
       (Modern.updates [1.0; 0.5; 1.02] (Modern.init now))
       (Modern.updates [1; 1 # 2; 51 # 50]
          (Modern.set_time_multiplier 1 (Modern.init now))).
Proof.
  intros now.
  assert (same_state init
            (set_time_multiplier (2 # 2) (set_current_day (0 # 5) init))) as Hs
    by (repeat split; try reflexivity; apply same_angles_refl).
  assert (modern_same_state (Modern.init now)
            (Modern.set_time_multiplier 1 (Modern.init now))) as Hm
    by (repeat split; try reflexivity; apply same_angles_refl).
  assert (Forall2 Qeq [1.0; 0.5; 1.02] [1; 1 # 2; 51 # 50]) as Hd
    by (repeat constructor).
  destruct (tick_deterministic init
              (set_time_multiplier (2 # 2) (set_current_day (0 # 5) init))
              (Modern.init now) (Modern.set_time_multiplier 1 (Modern.init now))
              [1.0; 0.5; 1.02] [1; 1 # 2; 51 # 50]) as (A & _ & B & _).
  split; [exact (A Hs) | exact (proj1 (B Hm Hd))].
Defined.

End Determinism.

(** * Further properties *)

(** ** The main loop of the ancient variant *)

Section AncientLoop.

Import AncientConfig Ancient.

Lemma handle_event_clock (ev : event) (a a' : AncientAntikythera) :
  handle_event ev a = Ok a' ->
  0 < time_multiplier (state a) ->
  0 < time_multiplier (state a')
  /\ current_day (state a') = current_day (state a).
Proof.
  destruct ev as [| [] |]; cbn [handle_event]; intros H Hpos;
    try discriminate; injection H as <-.
  - cbn. split; [| reflexivity].
    apply Qmult_lt_0_compat; [exact Hpos | reflexivity].
  - cbn. split; [| reflexivity].
    apply Qmult_lt_0_compat; [exact Hpos | reflexivity].
  - cbn. split; [exact Hpos | reflexivity].
  - rewrite (proj1 (state__update_caption _)). cbn. split; [exact Hpos | reflexivity].
  - split; [exact Hpos | reflexivity].
  - split; [exact Hpos | reflexivity].
Qed.

Lemma _handle_input_clock (events : list event) (a a' : AncientAntikythera) :
  _handle_input events a = Ok a' ->
  0 < time_multiplier (state a) ->
  0 < time_multiplier (state a')
  /\ current_day (state a') = current_day (state a).
Proof.
  revert a. induction events as [| ev rest IH]; intros a; cbn [_handle_input].
  - intros [= <-] Hpos. split; [exact Hpos | reflexivity].
  - destruct (handle_event ev a) as [a1 |] eqn:E; cbn [Py.bind]; [| discriminate].
    intros H Hpos. destruct (handle_event_clock ev a a1 E Hpos) as [P1 D1].
    destruct (IH a1 H P1) as [P2 D2]. split; [exact P2 | congruence].
Qed.

Lemma update_clock (s s' : AncientSimulationState) :
  update s = Ok s' ->
  0 < time_multiplier s ->
  0 < time_multiplier s' /\ current_day s <= current_day s'.
Proof.
  intros Hu Hpos. destruct (paused s) eqn:Hp.
  - rewrite update_paused in Hu by exact Hp. injection Hu as <-.
    split; [exact Hpos | apply Qle_refl].
  - destruct (update_running_fields s s' Hp Hu) as (Hd & Ht & _ & _).
    rewrite Hd, Ht. split; [exact Hpos | lra].
Qed.

(** The clock over some turns of the loop. *)
Lemma run_clock (turns : list (list event)) (a a' : AncientAntikythera) :
  run turns a = Ok a' -> 0 < time_multiplier (state a) ->
  0 < time_multiplier (state a')
  /\ current_day (state a) <= current_day (state a').
Proof.
  revert a. induction turns as [| events rest IH]; intros a; cbn [run].
  - intros [= <-] Hpos. split; [exact Hpos | apply Qle_refl].
  - unfold run_turn.
    destruct (_handle_input events a) as [a1 |] eqn:E1; cbn [Py.bind];
      [| discriminate].
    destruct (update (state a1)) as [s1 |] eqn:E2; cbn [Py.bind];
      [| discriminate].
    intros H Hpos.
    destruct (_handle_input_clock events a a1 E1 Hpos) as [P1 D1].
    destruct (update_clock (state a1) s1 E2 P1) as [P2 D2].
    destruct (IH _ H P2) as [P3 D3]. cbn [state set_state] in D3.
    split; [exact P3 |]. rewrite <- D1. lra.
Qed.

Lemma run_clock_init (turns : list (list event)) (a : AncientAntikythera) :
  run turns app_init = Ok a ->
  0 < time_multiplier (state a) /\ 0 <= current_day (state a).
Proof. intros H. apply (run_clock turns app_init a H). reflexivity. Qed.

(** X1. Along the main loop the clock never runs backwards: if the time
    multiplier is positive before some turns of the loop, it is positive
    after them, whatever keys were pressed, and the day count has not
    decreased.  From the initial application the multiplier is therefore
    always positive and the day count never negative. *)
Theorem ancient_clock_monotone (turns : list (list event))
    (a a' : AncientAntikythera) :
  (run turns a = Ok a' -> 0 < time_multiplier (state a) ->
   0 < time_multiplier (state a')
   /\ current_day (state a) <= current_day (state a'))
  /\ (run turns app_init = Ok a' ->
      0 < time_multiplier (state a') /\ 0 <= current_day (state a')).
Proof.
  split; [apply run_clock | apply run_clock_init].
Qed.

(** X1 on four turns: faster twice, then slower. *)
Lemma ancient_clock_monotone_witness :
  exists a',
    run [[KEYDOWN K_UP; KEYDOWN K_UP]; []; [KEYDOWN K_DOWN]; []] app_init = Ok a'
    /\ 0 < time_multiplier (state a') /\ 0 <= current_day (state a').
Proof.
  set (turns := [[KEYDOWN K_UP; KEYDOWN K_UP]; []; [KEYDOWN K_DOWN]; []]).
  assert (exists a', run turns app_init = Ok a') as [a' E]
    by (vm_compute; eexists; reflexivity).
  destruct (ancient_clock_monotone turns app_init a') as (_ & I).
  exists a'. split; [exact E | exact (I E)].
Defined.






End AncientLoop.

(** ** View and caption of the ancient variant *)

Section AncientView.

Import Ancient.

Lemma well_captioned_fixed (a : AncientAntikythera) :
  well_captioned a -> _update_caption a = a.
Proof.
  destruct a as [s v c]. unfold well_captioned, _update_caption, set_caption.
  cbn. intros [[-> ->] | [-> ->]]; reflexivity.
Qed.

Lemma well_captioned_set_state (s : AncientSimulationState)
    (a : AncientAntikythera) :
  well_captioned a -> well_captioned (set_state s a).
Proof. intros H. exact H. Qed.

Lemma handle_event_well_captioned (ev : event) (a a' : AncientAntikythera) :
  handle_event ev a = Ok a' -> well_captioned a -> well_captioned a'.
Proof.
  destruct ev as [| [] |]; cbn [handle_event]; intros H Hw;
    try discriminate; injection H as <-; try exact Hw.
  destruct a as [s v c]. destruct Hw as [[Hv Hc] | [Hv Hc]]; cbn in Hv, Hc; subst.
  - right. split; reflexivity.
  - left. split; reflexivity.
Qed.

Lemma run_well_captioned (turns : list (list event)) (a a' : AncientAntikythera) :
  run turns a = Ok a' -> well_captioned a -> well_captioned a'.
Proof.
  revert a. induction turns as [| events rest IH]; intros a; cbn [run].
  - intros [= <-]. auto.
  - unfold run_turn.
    destruct (_handle_input events a) as [a1 |] eqn:E1; cbn [Py.bind];
      [| discriminate].
    destruct (update (state a1)) as [s1 |] eqn:E2; cbn [Py.bind]; [| discriminate].
    intros H Hw. apply (IH _ H). apply well_captioned_set_state.
    clear -E1 Hw. revert a E1 Hw.
    induction events as [| ev more IHe]; intros a; cbn [_handle_input].
    + intros [= <-]. auto.
    + destruct (handle_event ev a) as [a2 |] eqn:E; cbn [Py.bind]; [| discriminate].
      intros H Hw. apply (IHe a2 H). exact (handle_event_well_captioned ev a a2 E Hw).
Qed.

(** X3. Every application the loop reaches from the initial one shows one
    of the two faces under the caption of that face.  On such an
    application the TAB key switches to the other face, leaves the state
    alone, and a second TAB gives back the application as it was; and a
    recording, whatever view it was asked for, returns with the face and
    the caption it found. *)
Theorem ancient_view_and_caption (turns : list (list event))
    (a : AncientAntikythera) :
  (run turns app_init = Ok a -> well_captioned a)
  /\ (well_captioned a ->
      exists a1,
        handle_event (KEYDOWN K_TAB) a = Ok a1
        /\ current_view a1 <> current_view a
        /\ state a1 = state a
        /\ well_captioned a1
        /\ handle_event (KEYDOWN K_TAB) a1 = Ok a)
  /\ (well_captioned a ->
      forall view speed_multiplier duration_seconds was_recording r',
        AncientRecorder.start_recording view speed_multiplier duration_seconds
          {| AncientRecorder.app := a; AncientRecorder.recording := was_recording |}
        = Ok r' ->
        current_view (AncientRecorder.app r') = current_view a
        /\ caption (AncientRecorder.app r') = caption a).
Proof.
  split.
  { intros H. apply (run_well_captioned turns app_init a H).
    left. split; reflexivity. }
  split.
  - intros Hw. destruct a as [s v c].
    destruct Hw as [[Hv Hc] | [Hv Hc]]; cbn in Hv, Hc; subst; eexists;
      (split; [reflexivity |]); cbn;
      (split; [discriminate |]); (split; [reflexivity |]).
    + split; [right; split; reflexivity | reflexivity].
    + split; [left; split; reflexivity | reflexivity].
  - intros Hw view speed_multiplier duration_seconds was_recording r' H.
    destruct was_recording.
    + cbn in H. injection H as <-. split; reflexivity.
    + unfold AncientRecorder.start_recording in H.
      cbn [AncientRecorder.recording AncientRecorder.app] in H.
      destruct (AncientRecorder.record_frames _ _) as [a5 |] eqn:E5;
        cbn [Py.bind] in H; [| discriminate].
      injection H as <-. cbn [AncientRecorder.app].
      destruct a as [s v c].
      destruct Hw as [[Hv Hc] | [Hv Hc]]; cbn in Hv, Hc; subst;
        unfold _update_caption; cbn; split; reflexivity.
Qed.

(** X3 after a TAB and a speed change. *)
Lemma ancient_view_and_caption_witness :
  exists a,
    run [[KEYDOWN K_TAB]; [KEYDOWN K_UP]] app_init = Ok a
    /\ current_view a = "back"
    /\ caption a = "Ancient Antikythera - Back Dials"
    /\ exists a1, handle_event (KEYDOWN K_TAB) a = Ok a1
                  /\ handle_event (KEYDOWN K_TAB) a1 = Ok a.
Proof.
  set (turns := [[KEYDOWN K_TAB]; [KEYDOWN K_UP]]).
  assert (exists a, run turns app_init = Ok a) as [a E]
    by (vm_compute; eexists; reflexivity).
  destruct (ancient_view_and_caption turns a) as (I & T & _).
  pose proof (I E) as Hw.
  destruct (T Hw) as (a1 & H1 & _ & _ & _ & H2).
  exists a. split; [exact E |].
  vm_compute in E. injection E as <-.
  split; [reflexivity |]. split; [reflexivity |].
  exists a1. split; [exact H1 | exact H2].
Defined.

End AncientView.

(** ** The moon of the ancient variant *)

Section AncientMoon.

Import AncientConfig Ancient MoonDisplay.

Lemma fmod_scale (x y c : Q) :
  0 < y -> 0 < c -> fmod (x * c) (y * c) == fmod x y * c.
Proof.
  intros Hy Hc. unfold fmod.
  assert (x * c / (y * c) == x / y) as E by (field; split; lra).
  rewrite (Qfloor_comp _ _ E). ring.
Qed.

Lemma ancient_phase_fraction (sun_angle moon_angle : Q) :
  AncientRenderer.phase sun_angle moon_angle
  == fmod ((moon_angle - sun_angle) / (2 * math_pi) + (1 # 2)) 1.
Proof.
  unfold AncientRenderer.phase, AncientRenderer.angle_diff.
  assert (0 < 2 * math_pi) as Hpi by reflexivity.
  set (u := (moon_angle - sun_angle) / (2 * math_pi) + (1 # 2)).
  assert (fmod (moon_angle - sun_angle + math_pi) (2 * math_pi)
          == fmod (u * (2 * math_pi)) (1 * (2 * math_pi))) as E1.
  { apply fmod_comp; [| ring]. unfold u. field. lra. }
  rewrite E1, fmod_scale by (reflexivity || exact Hpi). field. lra.
Qed.

Lemma ancient_phase_comp (s s' m m' : Q) :
  s == s' -> m == m' -> AncientRenderer.phase s m == AncientRenderer.phase s' m'.
Proof.
  intros Hs Hm. rewrite !ancient_phase_fraction.
  apply fmod_comp; [| reflexivity]. rewrite Hs, Hm. reflexivity.
Qed.



End AncientMoon.

(** ** The back dials of the ancient variant *)

Section AncientBackDials.

Import AncientBackRenderer.


(** The floor of a quotient by a positive integer. *)
Lemma Qfloor_div_int (x : Q) (n : Z) :
  (0 < n)%Z -> Qfloor (x / inject_Z n) = (Qfloor x / n)%Z.
Proof.
  intros Hn. destruct (Qfloor_bounds x) as [Flo Fhi].
  assert (0 < inject_Z n) as Hq by (change 0 with (inject_Z 0); rewrite <- Zlt_Qlt; lia).
  pose proof (Z.div_mod (Qfloor x) n ltac:(lia)) as Hdm.
  pose proof (Z.mod_pos_bound (Qfloor x) n Hn) as Hmb.
  set (k := (Qfloor x / n)%Z) in *. set (r := (Qfloor x mod n)%Z) in *.
  assert (inject_Z (Qfloor x) == inject_Z n * inject_Z k + inject_Z r) as E
    by (rewrite Hdm, inject_Z_plus, inject_Z_mult; reflexivity).
  assert (0 <= inject_Z r) as R0 by (change 0 with (inject_Z 0); rewrite <- Zle_Qle; lia).
  assert (inject_Z r + 1 <= inject_Z n) as R1.
  { change 1 with (inject_Z 1). rewrite <- inject_Z_plus, <- Zle_Qle. lia. }
  apply Qfloor_unique.
  - apply Qle_shift_div_l; [exact Hq |].
    set (qk := inject_Z k) in *. set (qn := inject_Z n) in *.
    set (qr := inject_Z r) in *. set (qf := inject_Z (Qfloor x)) in *.
    assert (qk * qn == qn * qk) as C by ring. lra.
  - apply Qlt_shift_div_r; [exact Hq |].
    set (qk := inject_Z k) in *. set (qn := inject_Z n) in *.
    set (qr := inject_Z r) in *. set (qf := inject_Z (Qfloor x)) in *.
    assert ((qk + 1) * qn == qn * qk + qn) as C by ring. lra.
Qed.








(** X8. The Metonic dial writes the same name everywhere.  A label is
    written at the months whose index is a multiple of 12, and the name is
    looked up at that index modulo 12, which is 0: all twenty labels of
    the dial (months 0, 12, ... 228) read PHOINIKAIOS, and the other
    eleven names of [METONIC_MONTHS] are never shown. *)
Theorem metonic_labels_all_first (month_idx : Z) :
  ((month_idx mod 12 = 0)%Z -> month_name month_idx = Some "PHOINIKAIOS")
  /\ Forall (fun l => snd l = Some "PHOINIKAIOS") metonic_labels
  /\ fst <$> metonic_labels = (fun k => 12 * k)%Z <$> seqZ 0 20.
Proof.
  split; [intros H; unfold month_name; rewrite H; reflexivity |].
  split; [| vm_compute; reflexivity].
  unfold metonic_labels. rewrite Forall_fmap. apply Forall_forall.
  intros i Hi. apply list_elem_of_filter in Hi as [Hm _].
  cbn. unfold month_name. rewrite Hm. reflexivity.
Qed.

(** X8 at the third label. *)
Lemma metonic_labels_all_first_witness :
  month_name 24 = Some "PHOINIKAIOS"%string.
Proof.
  exact (proj1 (metonic_labels_all_first 24) eq_refl).
Defined.

End AncientBackDials.

(** ** The front face of the ancient variant *)

Section AncientFront.

Import AncientConfig Ancient AncientRenderer AncientScene.

Lemma int_scaled_bounds (M : Z) (c : Q) :
  (0 <= M)%Z -> 0 <= c -> c <= 1 ->
  (0 <= Py.int (inject_Z M * c) <= M)%Z
  /\ (c == 1 -> Py.int (inject_Z M * c) = M).
Proof.
  intros HM Hc0 Hc1.
  assert (0 <= inject_Z M) as HQ
    by (change 0 with (inject_Z 0); rewrite <- Zle_Qle; exact HM).
  assert (0 <= inject_Z M * c) as P by (apply Qmult_le_0_compat; assumption).
  assert (inject_Z M * c <= inject_Z M) as U.
  { assert (0 <= inject_Z M * (1 - c)) as V
      by (apply Qmult_le_0_compat; [exact HQ | lra]).
    assert (inject_Z M * (1 - c) == inject_Z M - inject_Z M * c) as E by ring.
    set (u := inject_Z M * c) in *. lra. }
  rewrite int_nonneg by exact P.
  split.
  - split.
    + rewrite <- (Qfloor_Z 0). apply Qfloor_resp_le. exact P.
    + rewrite <- (Qfloor_Z M) at 2. apply Qfloor_resp_le. exact U.
  - intros E. rewrite <- (Qfloor_Z M) at 2. apply Qfloor_comp. rewrite E. ring.
Qed.

Lemma normalized_dist_range (name : string) (data : body) :
  (name, data) ∈ GEOCENTRIC_DATA ->
  0 <= normalized_dist data /\ normalized_dist data <= 1
  /\ (name = "Saturn" -> normalized_dist data == 1).
Proof.
  intros Hin. unfold GEOCENTRIC_DATA in Hin.
  repeat (apply elem_of_cons in Hin as [Hin | Hin];
          [injection Hin as -> ->;
           split; [discriminate |]; split; [discriminate |];
           intros Hn; try discriminate Hn; reflexivity |]).
  inversion Hin.
Qed.

(** X9. The orbits of the ancient front face are normalised to the
    window.  On a window at least 160 wide no orbit radius is negative or
    greater than [WIDTH // 2 - 80], and the outermost body, Saturn, is
    drawn exactly at that radius. *)
Theorem ancient_orbits_fit (WIDTH : Z) (name : string) (data : body) :
  (160 <= WIDTH)%Z -> (name, data) ∈ GEOCENTRIC_DATA ->
  (0 <= orbit_radius WIDTH data <= max_screen_dist WIDTH)%Z
  /\ (name = "Saturn" -> orbit_radius WIDTH data = max_screen_dist WIDTH).
Proof.
  intros HW Hin.
  assert (0 <= max_screen_dist WIDTH)%Z as HM.
  { unfold max_screen_dist. pose proof (Z.div_le_mono 160 WIDTH 2 ltac:(lia) HW) as H.
    change (160 / 2)%Z with 80%Z in H. lia. }
  destruct (normalized_dist_range name data Hin) as (C0 & C1 & CS).
  destruct (int_scaled_bounds (max_screen_dist WIDTH) (normalized_dist data)
              HM C0 C1) as [B S].
  unfold orbit_radius. split; [exact B |].
  intros Hn. apply S, CS, Hn.
Qed.

(** X9 on the window of 1200, Mars and Saturn. *)
Lemma ancient_orbits_fit_witness :
  orbit_radius 1200 {| period := 10747.0; distance := 1.6;
                       color := (240, 200, 150)%Z; size := 8 |}
  = max_screen_dist 1200.
Proof.
  assert (160 <= 1200)%Z as HW by lia.
  refine (proj2 (ancient_orbits_fit 1200 "Saturn" _ HW _) eq_refl).
  do 6 apply list_elem_of_further. apply list_elem_of_here.
Defined.




End AncientFront.

(** ** The modern clock *)

Section ModernClock.

Import ModernConfig Modern.

Lemma PLANET_VISUAL_DATA_NoDup : NoDup (fst <$> PLANET_VISUAL_DATA).
Proof. apply NoDup_ListNoDup. simpl. repeat constructor; simpl; intuition discriminate. Qed.

(** The loop over the planets: it fails on the first planet without an
    angle, and otherwise adds the same change to the angle of each planet
    of the table and touches nothing else. *)
Lemma advance_planets_outcome (cfg : list (string * planet)) (delta_time : Q)
    (m : SimulationState) :
  NoDup (fst <$> cfg) ->
  (exists m', advance_planets cfg delta_time m = Ok m'
     /\ current_date m' = current_date m
     /\ time_multiplier m' = time_multiplier m
     /\ paused m' = paused m
     /\ (forall name, name ∉ fst <$> cfg ->
           planet_angles m' !! name = planet_angles m !! name)
     /\ (forall name data, (name, data) ∈ cfg ->
           exists a, planet_angles m !! name = Some a
             /\ planet_angles m' !! name
                = Some (a + radians (speed data * time_multiplier m * delta_time))))
  \/ (advance_planets cfg delta_time m = Raise KeyError
      /\ exists name data, (name, data) ∈ cfg /\ planet_angles m !! name = None).
Proof.
  revert m. induction cfg as [| [n d] rest IH]; intros m Hnd.
  - left. exists m. cbn. repeat split; try reflexivity.
    intros name data Hin. inversion Hin.
  - cbn [fmap list_fmap fst] in Hnd. apply NoDup_cons in Hnd as [Hn Hnd].
    cbn [advance_planets]. destruct (planet_angles m !! n) as [a |] eqn:E.
    2:{ right. split; [reflexivity |]. exists n, d.
        split; [apply list_elem_of_here | exact E]. }
    set (m1 := set_planet_angles _ m).
    destruct (IH m1 Hnd) as [(m' & Hm' & Hd & Ht & Hp & Ho & Hi)
                             | (Hr & n' & d' & Hin & Hnone)].
    + left. exists m'. split; [exact Hm' |].
      split; [exact Hd |]. split; [exact Ht |]. split; [exact Hp |].
      split.
      * intros name Hname. cbn [fmap list_fmap fst] in Hname.
        apply not_elem_of_cons in Hname as [Hne Hname].
        rewrite (Ho name Hname). unfold m1. cbn.
        apply lookup_insert_ne. congruence.
      * intros name data Hin. apply elem_of_cons in Hin as [Heq | Hin].
        -- injection Heq as -> ->. exists a. split; [exact E |].
           rewrite (Ho n Hn). unfold m1. cbn. apply lookup_insert_eq.
        -- destruct (Hi name data Hin) as (a' & Ha' & Hnew).
           assert (name <> n) as Hne.
           { intros ->. apply Hn. apply list_elem_of_fmap.
             exists (n, data). split; [reflexivity | exact Hin]. }
           unfold m1 in Ha'. cbn in Ha'.
           rewrite lookup_insert_ne in Ha' by congruence.
           exists a'. split; [exact Ha' | exact Hnew].
    + right. split; [exact Hr |].
      destruct (decide (n' = n)) as [-> | Hne].
      * unfold m1 in Hnone. cbn in Hnone. rewrite lookup_insert_eq in Hnone.
        discriminate.
      * exists n', d'. split; [apply list_elem_of_further; exact Hin |].
        unfold m1 in Hnone. cbn in Hnone.
        rewrite lookup_insert_ne in Hnone by congruence. exact Hnone.
Qed.

Lemma all_planets_init (now : Z) : all_planets (init now).
Proof.
  intros name data Hin. unfold PLANET_VISUAL_DATA in Hin.
  repeat (apply elem_of_cons in Hin as [Hin | Hin];
          [injection Hin as -> ->; eexists; reflexivity |]).
  inversion Hin.
Qed.

Lemma update_all_planets (delta_time : Q) (m m' : SimulationState) :
  update delta_time m = Ok m' -> all_planets m -> all_planets m'.
Proof.
  unfold update. destruct (negb (paused m)); [| intros [= <-]; auto].
  destruct (DateTime.timedelta_days _) as [td |]; cbn [Py.bind]; [| discriminate].
  destruct (DateTime.add _ td) as [d |]; cbn [Py.bind]; [| discriminate].
  intros H Hall.
  destruct (advance_planets_outcome PLANET_VISUAL_DATA delta_time
              (set_current_date d m) PLANET_VISUAL_DATA_NoDup)
    as [(m1 & Hm1 & _ & _ & _ & _ & Hi) | (Hr & _)]; [| congruence].
  rewrite Hm1 in H. injection H as <-.
  intros name data Hin. destruct (Hi name data Hin) as (a & _ & Hnew).
  eexists. exact Hnew.
Qed.

Lemma update_no_KeyError (delta_time : Q) (m : SimulationState) (e : exn) :
  all_planets m -> update delta_time m = Raise e -> e = OverflowError.
Proof.
  intros Hall H. unfold update in H.
  destruct (negb (paused m)); [| discriminate].
  destruct (DateTime.timedelta_days _) as [td | e1] eqn:E1; cbn [Py.bind] in H.
  - destruct (DateTime.add _ td) as [d | e2] eqn:E2; cbn [Py.bind] in H.
    + destruct (advance_planets_outcome PLANET_VISUAL_DATA delta_time
                  (set_current_date d m) PLANET_VISUAL_DATA_NoDup)
        as [(m1 & Hm1 & _) | (_ & n & dt & Hin & Hnone)]; [congruence |].
      destruct (Hall n dt Hin) as [x Hx]. cbn in Hnone. congruence.
    + injection H as <-. unfold DateTime.add in E2.
      destruct (_ && _) in E2; congruence.
  - injection H as <-. unfold DateTime.timedelta_days in E1.
    destruct (_ >? _)%Z in E1; congruence.
Qed.

(** What the keys keep: the planets and a positive multiplier. *)
Lemma modern_handle_event_inv (ev : event) (ar : ModernAntikythera * bool) :
  all_planets (simulation_state (fst ar))
  /\ 0 < time_multiplier (simulation_state (fst ar)) ->
  all_planets (simulation_state (fst (handle_event ev ar)))
  /\ 0 < time_multiplier (simulation_state (fst (handle_event ev ar))).
Proof.
  destruct ar as [a r]. cbn [fst]. intros [Hall Hpos].
  destruct ev as [| [] |]; cbn [handle_event fst]; try (split; assumption).
  - split; [exact Hall |]. cbn.
    apply Qmult_lt_0_compat; [exact Hpos | reflexivity].
  - split; [exact Hall |]. cbn. unfold Qdiv.
    apply Qmult_lt_0_compat; [exact Hpos | reflexivity].
  - rewrite (proj1 (modern_state__update_caption _)).
    split; [exact Hall | exact Hpos].
Qed.

Lemma modern_handle_events_inv (events : list event)
    (ar : ModernAntikythera * bool) :
  all_planets (simulation_state (fst ar))
  /\ 0 < time_multiplier (simulation_state (fst ar)) ->
  all_planets
    (simulation_state (fst (foldl (fun ar ev => handle_event ev ar) ar events)))
  /\ 0 < time_multiplier
          (simulation_state (fst (foldl (fun ar ev => handle_event ev ar) ar events))).
Proof.
  revert ar. induction events as [| ev rest IH]; intros ar H; cbn [foldl].
  - exact H.
  - apply IH, modern_handle_event_inv, H.
Qed.

Lemma modern_update_multiplier (delta_time : Q) (m m' : SimulationState) :
  update delta_time m = Ok m' -> time_multiplier m' = time_multiplier m.
Proof.
  intros H. destruct (paused m) eqn:Hp.
  - rewrite modern_update_paused in H by exact Hp. congruence.
  - destruct (modern_update_running_fields delta_time m m' Hp H)
      as (td & _ & _ & Ht & _). exact Ht.
Qed.

Lemma modern_run_inv (turns : list (Z * list event)) (a : ModernAntikythera) :
  all_planets (simulation_state a) -> 0 < time_multiplier (simulation_state a) ->
  (forall a', run turns a = Ok a' ->
     all_planets (simulation_state a')
     /\ 0 < time_multiplier (simulation_state a'))
  /\ (forall e, run turns a = Raise e -> e = SystemExit \/ e = OverflowError).
Proof.
  revert a. induction turns as [| [tick_ms events] rest IH]; intros a Hall Hpos.
  - split; [intros a' [= <-]; split; assumption | intros e; discriminate].
  - cbn [run]. unfold run_turn.
    destruct (modern_handle_events_inv events (a, true) (conj Hall Hpos))
      as [Hall1 Hpos1].
    destruct (foldl _ (a, true) events) as [a1 running]. cbn [fst] in Hall1, Hpos1.
    destruct (update (delta_time_of tick_ms) (simulation_state a1)) as [s1 | e1] eqn:E;
      cbn [Py.bind fst snd].
    + pose proof (update_all_planets _ _ _ E Hall1) as Hall2.
      pose proof (modern_update_multiplier _ _ _ E) as Ht.
      destruct running.
      * apply IH; cbn; [exact Hall2 | rewrite Ht; exact Hpos1].
      * split; [discriminate | intros e [= <-]; left; reflexivity].
    + split; [discriminate |]. intros e [= <-]. right.
      exact (update_no_KeyError _ _ _ Hall1 E).
Qed.

(** X11. The modern loop never fails for a missing planet.  Started at
    any date, every application it reaches has an angle for each planet
    of the table and a positive time multiplier; and when the loop stops,
    it is with [SystemExit] after a QUIT event or with the [OverflowError]
    of a date that has left the calendar, never with a [KeyError] or a
    division by zero. *)
Theorem modern_run_keeps_planets (now : Z) (turns : list (Z * list event))
    (a : ModernAntikythera) (e : exn) :
  (run turns (app_init now) = Ok a ->
   all_planets (simulation_state a)
   /\ 0 < time_multiplier (simulation_state a))
  /\ (run turns (app_init now) = Raise e ->
      e = SystemExit \/ e = OverflowError).
Proof.
  destruct (modern_run_inv turns (app_init now) (all_planets_init now) eq_refl)
    as [I R].
  split; [apply I | apply R].
Qed.

(** X11 on two turns from the first microsecond of 2026. *)
Lemma modern_run_keeps_planets_witness :
  let now := ((739617 - 1) * DateTime.us_per_day)%Z in
  exists a,
    run [(17%Z, [KEYDOWN K_UP]); (16%Z, [])] (app_init now) = Ok a
    /\ all_planets (simulation_state a)
    /\ run [(17%Z, [QUIT]); (16%Z, [])] (app_init now) = Raise SystemExit.
Proof.
  intros now.
  assert (exists a, run [(17%Z, [KEYDOWN K_UP]); (16%Z, [])] (app_init now) = Ok a)
    as [a E] by (vm_compute; eexists; reflexivity).
  destruct (modern_run_keeps_planets now [(17%Z, [KEYDOWN K_UP]); (16%Z, [])]
              a KeyError) as (I & _).
  exists a. split; [exact E |]. split; [exact (proj1 (I E)) |].
  vm_compute. reflexivity.
Defined.

End ModernClock.

(** ** Angles and date of the modern clock *)

Section ModernAngles.

Import ModernConfig Modern.










End ModernAngles.

(** ** The moon display, continued *)

Section MoonDisc.

Import MoonDisplay.

(** X14. What the moon display draws, in both variants.  For a phase in
    [0, 1) and a moon of positive radius the lit disc is left out only
    at phase 0; when it is drawn its radius is a whole number between 0
    and the radius of the moon, the full radius at phase one half.  With
    a table of eight names a label is always written. *)
Theorem moon_disc_drawn (names : list string) (phase : Q) (WIDTH : Z) :
  0 <= phase -> phase < 1 -> (0 < moon_radius WIDTH)%Z ->
  (lit_disc (show names phase WIDTH) = None <-> phase == 0)
  /\ (forall r, lit_disc (show names phase WIDTH) = Some r ->
        (0 <= r <= moon_radius WIDTH)%Z)
  /\ (phase == 1 # 2 ->
      lit_disc (show names phase WIDTH) = Some (moon_radius WIDTH))
  /\ (length names = 8%nat -> is_Some (label (show names phase WIDTH))).
Proof.
  intros H0 H1 HR.
  assert (0 < inject_Z (moon_radius WIDTH)) as HQ
    by (change 0 with (inject_Z 0); rewrite <- Zlt_Qlt; exact HR).
  set (R := inject_Z (moon_radius WIDTH)) in *.
  assert (0 <= lit_radius phase (moon_radius WIDTH)
          /\ lit_radius phase (moon_radius WIDTH) <= R
          /\ (0 < lit_radius phase (moon_radius WIDTH) <-> 0 < phase)) as (L0 & L1 & L2).
  { destruct (Qlt_le_dec phase 0.5) as [L | G].
    - rewrite (lit_radius_waxing phase) by exact L. fold R.
      assert (0 <= phase * R) as A by (apply Qmult_le_0_compat; lra).
      assert (0 <= ((1 # 2) - phase) * R) as B by (apply Qmult_le_0_compat; lra).
      split; [lra |]. split; [lra |]. split.
      + intros P. destruct (Qlt_le_dec 0 phase) as [Y | N]; [exact Y |].
        assert (phase == 0) as Z by lra. rewrite Z in P. lra.
      + intros P. assert (0 < phase * R) by (apply Qmult_lt_0_compat; assumption).
        lra.
    - rewrite (lit_radius_waning phase) by exact G. fold R.
      assert (0 < (1 - phase) * R) as A by (apply Qmult_lt_0_compat; lra).
      assert (0 <= (phase - (1 # 2)) * R) as B by (apply Qmult_le_0_compat; lra).
      split; [lra |]. split; [lra |]. split; intros; lra. }
  unfold show. cbn [lit_disc label].
  split; [| split; [| split]].
  - destruct (Qlt_le_dec 0 (lit_radius phase (moon_radius WIDTH))) as [P | N].
    + split; [discriminate |]. intros Z. apply L2 in P. lra.
    + split; [| reflexivity]. intros _.
      destruct (Qlt_le_dec 0 phase) as [Y | N']; [apply L2 in Y; lra | lra].
  - intros r. destruct (Qlt_le_dec 0 _) as [P | N]; [| discriminate].
    intros [= <-]. rewrite int_nonneg by exact L0. split.
    + rewrite <- (Qfloor_Z 0). apply Qfloor_resp_le. exact L0.
    + rewrite <- (Qfloor_Z (moon_radius WIDTH)) at 2. apply Qfloor_resp_le. exact L1.
  - intros Hh.
    assert (lit_radius phase (moon_radius WIDTH) == R) as E
      by (rewrite lit_radius_waning by lra; fold R; rewrite Hh; ring).
    destruct (Qlt_le_dec 0 _) as [P | N]; [| lra].
    f_equal. rewrite int_nonneg by exact L0.
    rewrite <- (Qfloor_Z (moon_radius WIDTH)) at 2. apply Qfloor_comp. exact E.
  - intros Hlen. unfold current_phase_name.
    assert (0 <= phase_index phase < 8)%Z as Hi
      by (unfold phase_index; apply Z.mod_pos_bound; lia).
    destruct (names !! Z.to_nat (phase_index phase)) as [n |] eqn:E.
    + eexists. reflexivity.
    + apply lookup_ge_None in E. lia.
Qed.

(** X14 on the window of 1200 at the first quarter. *)
Lemma moon_disc_drawn_witness :
  lit_disc (show AncientConfig.MOON_PHASE_NAMES 0.25 1200) <> None
  /\ is_Some (label (show AncientConfig.MOON_PHASE_NAMES 0.25 1200)).
Proof.
  assert (0 <= 0.25) as H0 by discriminate.
  assert (0.25 < 1) as H1 by reflexivity.
  assert (0 < moon_radius 1200)%Z as HR by reflexivity.
  destruct (moon_disc_drawn AncientConfig.MOON_PHASE_NAMES 0.25 1200 H0 H1 HR)
    as (N & _ & _ & L).
  split; [| apply L; reflexivity].
  intros E. apply N in E. discriminate E.
Defined.

End MoonDisc.

(** ** The moon of the modern variant *)

Section ModernMoon.

Import ModernConfig Modern.




End ModernMoon.

(** ** The back dials of the modern variant *)

Section ModernBackDials.

Import ModernConfig Modern ModernBackRenderer.





End ModernBackDials.

(** ** The front face of the modern variant *)

Section ModernFront.

Import ModernConfig Modern ModernDrawing.

Lemma int_div_int (w n : Z) :
  (0 <= w)%Z -> (0 < n)%Z -> Py.int (inject_Z w / inject_Z n) = (w / n)%Z.
Proof.
  intros Hw Hn.
  assert (0 <= inject_Z w) as A by (change 0 with (inject_Z 0); rewrite <- Zle_Qle; lia).
  assert (0 < inject_Z n) as B by (change 0 with (inject_Z 0); rewrite <- Zlt_Qlt; lia).
  rewrite int_nonneg by (apply Qle_shift_div_l; [exact B | lra]).
  rewrite Qfloor_div_int by exact Hn. rewrite Qfloor_Z. reflexivity.
Qed.

Lemma orbit_spacing_div (width : Z) :
  (0 <= width)%Z -> orbit_spacing width = (10 * width / 266)%Z.
Proof.
  intros Hw. unfold orbit_spacing.
  rewrite <- (int_div_int (10 * width) 266) by lia.
  assert (0 <= inject_Z width) as A
    by (change 0 with (inject_Z 0); rewrite <- Zle_Qle; lia).
  assert (inject_Z width / 26.6 == inject_Z (10 * width) / inject_Z 266) as E
    by (rewrite inject_Z_mult; change (inject_Z 10) with 10;
        change (inject_Z 266) with 266; field).
  rewrite !int_nonneg; [apply Qfloor_comp; exact E | |].
  - rewrite <- E. apply Qle_shift_div_l; [reflexivity | lra].
  - apply Qle_shift_div_l; [reflexivity | lra].
Qed.

(** X17. The rings and orbits of the modern front face are nested.  On a
    window of any width the orbit of each of the eight planets is no
    wider than that of Neptune, which lies within the month ring; the
    month ring lies within the day ring, that within the zodiac ring,
    that within the parapegma ring, and the parapegma ring within half
    the window. *)
Theorem modern_rings_nested (width i : Z) :
  (0 <= width)%Z -> (0 <= i < 8)%Z ->
  (0 <= orbit_radius width i)%Z
  /\ (orbit_radius width i <= orbit_radius width 7)%Z
  /\ (orbit_radius width 7 <= month_radius width)%Z
  /\ (month_radius width <= day_ring_radius width)%Z
  /\ (day_ring_radius width <= zodiac_radius width)%Z
  /\ (zodiac_radius width <= parapegma_radius width)%Z
  /\ (2 * parapegma_radius width <= width)%Z.
Proof.
  intros Hw Hi.
  unfold orbit_radius, month_radius, day_ring_radius, zodiac_radius,
    parapegma_radius, base_orbit.
  rewrite (orbit_spacing_div width Hw).
  change 17 with (inject_Z 17). change 30 with (inject_Z 30).
  change 20 with (inject_Z 20). change 25 with (inject_Z 25).
  rewrite !int_div_int by lia.
  pose proof (Z.div_pos (10 * width) 266 ltac:(lia) ltac:(lia)) as S.
  pose proof (Z.div_pos width 17 ltac:(lia) ltac:(lia)) as B.
  pose proof (Z.div_pos width 30 ltac:(lia) ltac:(lia)) as P30.
  pose proof (Z.div_pos width 20 ltac:(lia) ltac:(lia)) as P20.
  pose proof (Z.div_pos width 25 ltac:(lia) ltac:(lia)) as P25.
  assert (i * (10 * width / 266) <= 7 * (10 * width / 266))%Z as M
    by (apply Z.mul_le_mono_nonneg_r; lia).
  assert (0 <= i * (10 * width / 266))%Z as N by (apply Z.mul_nonneg_nonneg; lia).
  set (sp := (10 * width / 266)%Z) in *.
  assert (266 * sp <= 10 * width)%Z as Dsp
    by (unfold sp; apply Z.mul_div_le; lia).
  pose proof (Z.mul_div_le width 17 ltac:(lia)) as D17.
  pose proof (Z.mul_div_le width 30 ltac:(lia)) as D30.
  pose proof (Z.mul_div_le width 20 ltac:(lia)) as D20.
  pose proof (Z.mul_div_le width 25 ltac:(lia)) as D25.
  pose proof (Z.mul_succ_div_gt width 2 ltac:(lia)) as D2.
  pose proof (Z.mul_div_le width 2 ltac:(lia)) as D2'.
  set (ip := (i * sp)%Z) in *.
  set (q17 := (width / 17)%Z) in *. set (q30 := (width / 30)%Z) in *.
  set (q20 := (width / 20)%Z) in *. set (q25 := (width / 25)%Z) in *.
  set (q2 := (width / 2)%Z) in *.
  repeat split; lia.
Qed.

(** X17 on the window of 1200 and Mars. *)
Lemma modern_rings_nested_witness :
  (orbit_radius 1200 3 <= orbit_radius 1200 7)%Z
  /\ (orbit_radius 1200 7 <= month_radius 1200)%Z.
Proof.
  destruct (modern_rings_nested 1200 3 ltac:(lia) ltac:(lia)) as (_ & A & B & _).
  split; [exact A | exact B].
Defined.

Lemma gradient_channel_bounds (top bottom : Z) (ratio ratio' : Q) :
  (0 <= bottom <= top)%Z -> 0 <= ratio -> ratio <= ratio' -> ratio' <= 1 ->
  (bottom <= gradient_channel top bottom ratio' <= top)%Z
  /\ (gradient_channel top bottom ratio' <= gradient_channel top bottom ratio)%Z.
Proof.
  intros [Hb Ht] H0 Hr H1. unfold gradient_channel.
  assert (0 <= inject_Z bottom) as B0
    by (change 0 with (inject_Z 0); rewrite <- Zle_Qle; exact Hb).
  assert (inject_Z bottom <= inject_Z top) as BT by (rewrite <- Zle_Qle; exact Ht).
  set (t := inject_Z top) in *. set (b := inject_Z bottom) in *.
  assert (forall r, t * (1 - r) + b * r == t - (t - b) * r) as F by (intros; ring).
  assert (0 <= (t - b) * ratio) as A0 by (apply Qmult_le_0_compat; lra).
  assert (0 <= (t - b) * (ratio' - ratio)) as A1 by (apply Qmult_le_0_compat; lra).
  assert (0 <= (t - b) * (1 - ratio')) as A2 by (apply Qmult_le_0_compat; lra).
  assert ((t - b) * (ratio' - ratio) == (t - b) * ratio' - (t - b) * ratio) as E1 by ring.
  assert ((t - b) * (1 - ratio') == (t - b) - (t - b) * ratio') as E2 by ring.
  set (u := (t - b) * ratio) in *. set (u' := (t - b) * ratio') in *.
  assert (b <= t - u') as L by lra.
  assert (t - u' <= t - u) as M by lra.
  assert (t - u <= t) as U by lra.
  rewrite !int_nonneg by (rewrite F; fold u; fold u'; lra).
  rewrite (Qfloor_comp _ _ (F ratio')), (Qfloor_comp _ _ (F ratio)).
  fold u. fold u'. split; [split |].
  - unfold b in L. rewrite <- (Qfloor_Z bottom). apply Qfloor_resp_le. exact L.
  - rewrite <- (Qfloor_Z top). apply Qfloor_resp_le. fold t. lra.
  - apply Qfloor_resp_le. exact M.
Qed.

(** X18. The gradient of the modern background.  A surface of height
    [height] gets one line for each row, none when the height is not
    positive; the first line has the colour of the top, every line has
    its three components between those of the bottom colour and those of
    the top colour, and no component grows from a row to a lower one. *)
Theorem gradient_background_bounds (height y y' : Z) :
  length (draw_gradient_background height) = Z.to_nat height
  /\ ((0 < height)%Z -> gradient_row height 0 = BG_COLOR_TOP)
  /\ ((0 <= y <= y')%Z -> (y' < height)%Z ->
      let '(r, g, b) := gradient_row height y in
      let '(r', g', b') := gradient_row height y' in
      (5 <= r' <= r)%Z /\ (r <= 20)%Z
      /\ (5 <= g' <= g)%Z /\ (g <= 20)%Z
      /\ (20 <= b' <= b)%Z /\ (b <= 50)%Z).
Proof.
  split; [unfold draw_gradient_background; rewrite length_fmap, length_seqZ;
          reflexivity |].
  split.
  { intros Hh. unfold gradient_row, gradient_channel. cbn [BG_COLOR_TOP BG_COLOR_BOTTOM].
    assert (forall t b : Z,
              Py.int (inject_Z t * (1 - inject_Z 0 / inject_Z height)
                      + inject_Z b * (inject_Z 0 / inject_Z height)) = t) as F.
    { intros t b.
      assert (0 < inject_Z height) as Hq
        by (change 0 with (inject_Z 0); rewrite <- Zlt_Qlt; exact Hh).
      assert (inject_Z t * (1 - inject_Z 0 / inject_Z height)
              + inject_Z b * (inject_Z 0 / inject_Z height) == inject_Z t) as E
        by (change (inject_Z 0) with 0; field; lra).
      destruct (Z_le_gt_dec 0 t) as [P | N].
      - rewrite int_nonneg by (rewrite E; change 0 with (inject_Z 0);
                               rewrite <- Zle_Qle; exact P).
        rewrite (Qfloor_comp _ _ E). apply Qfloor_Z.
      - unfold Py.int. destruct (inject_Z t * _ + _) as [num den] eqn:Eq.
        unfold Qeq in E. cbn in E. cbn [Qnum Qden].
        rewrite Z.mul_1_r in E. rewrite E. apply Z.quot_mul. lia. }
    rewrite !F. reflexivity. }
  intros Hy Hy'.
  assert (0 < inject_Z height) as Hq
    by (change 0 with (inject_Z 0); rewrite <- Zlt_Qlt; lia).
  assert (0 <= inject_Z y / inject_Z height) as R0.
  { apply Qle_shift_div_l; [exact Hq |]. rewrite Qmult_0_l.
    change 0 with (inject_Z 0). rewrite <- Zle_Qle. lia. }
  assert (inject_Z y / inject_Z height <= inject_Z y' / inject_Z height) as R1.
  { apply Qmult_le_compat_r; [rewrite <- Zle_Qle; lia |].
    apply Qlt_le_weak, Qinv_lt_0_compat, Hq. }
  assert (inject_Z y' / inject_Z height <= 1) as R2.
  { apply Qle_shift_div_r; [exact Hq |]. rewrite Qmult_1_l, <- Zle_Qle. lia. }
  assert (0 <= inject_Z y / inject_Z height <= inject_Z y / inject_Z height) as Rs
    by (split; [exact R0 | apply Qle_refl]).
  unfold gradient_row. cbn [BG_COLOR_TOP BG_COLOR_BOTTOM].
  destruct (gradient_channel_bounds 20 5 _ _ ltac:(lia) R0 R1 R2) as [[A1 A2] A3].
  destruct (gradient_channel_bounds 50 20 _ _ ltac:(lia) R0 R1 R2) as [[B1 B2] B3].
  destruct (gradient_channel_bounds 20 5 _ _ ltac:(lia) R0 (Qle_refl _)
              (Qle_trans _ _ _ R1 R2)) as [[C1 C2] _].
  destruct (gradient_channel_bounds 50 20 _ _ ltac:(lia) R0 (Qle_refl _)
              (Qle_trans _ _ _ R1 R2)) as [[D1 D2] _].
  repeat split; assumption.
Qed.

(** X18 on a surface of 1200 rows, rows 100 and 700. *)
Lemma gradient_background_bounds_witness :
  gradient_row 1200 0 = BG_COLOR_TOP
  /\ (fst (fst (gradient_row 1200 700)) <= fst (fst (gradient_row 1200 100)))%Z.
Proof.
  destruct (gradient_background_bounds 1200 100 700) as (_ & T & M).
  split; [apply T; lia |].
  specialize (M ltac:(lia) ltac:(lia)).
  destruct (gradient_row 1200 100) as [[r g] b].
  destruct (gradient_row 1200 700) as [[r' g'] b'].
  cbn. lia.
Defined.

End ModernFront.

(** ** The recording keys of the ancient variant *)

Section AncientRecording.

Import Ancient AncientRecorder.










End AncientRecording.
